(** * Verification of the conan-center-index linter rule and the tk recipe

    Two source files are embedded here:

    - [linter/check_package_name.py]: the pylint checker [PackageName], whose
      single entry point [visit_classdef] inspects one class definition and
      reports at most one message;
    - [recipes/tk/all/conanfile.py]: the [TkConan] recipe, of which the
      [build] and [package] steps and the helpers they call are embedded.

    The Python standard library ([str], [pathlib], [fnmatch]), astroid and
    pylint are modelled as far as the two files use them. *)

From Stdlib Require Import String Ascii List Bool Arith NArith Lia.
From Stdlib Require Import DecimalString.
Import ListNotations.
Local Open Scope string_scope.
Local Open Scope list_scope.

(** ** Exceptions and fallible results *)

Inductive exn : Type :=
| AttributeError (attr : string)
| IndexError
| ValueError (msg : string)
| KeyError (key : string)
| OSError (path : string)
| UnknownMessageError (symbol : string)
| ConanException (msg : string).

Inductive result (A : Type) : Type :=
| Ok (a : A)
| Raise (e : exn).

Arguments Ok {A} a.
Arguments Raise {A} e.

Definition rbind {A B : Type} (r : result A) (k : A -> result B) : result B :=
  match r with
  | Ok a => k a
  | Raise e => Raise e
  end.

(** ** Python [str] on code points below 256

    A [string] is read as a Python [str], one [ascii] per code point; this
    covers ASCII and the Latin-1 supplement, and nothing above: a [str]
    with a code point from 256 on has no counterpart here, and neither have
    the [\u] and [\U] escapes that [repr] writes for such code points. *)

Module Py.

Definition ord (c : ascii) : N := N_of_ascii c.
Definition chr (n : N) : ascii := ascii_of_N n.

(** [str.lower] on one code point: A-Z, and the Latin-1 capitals
    U+00C0..U+00DE without the multiplication sign U+00D7. *)
Definition lower_char (c : ascii) : ascii :=
  let n := ord c in
  if ((65 <=? n) && (n <=? 90))%N
     || ((192 <=? n) && (n <=? 222) && negb (n =? 215))%N
  then chr (n + 32)
  else c.

Fixpoint lower (s : string) : string :=
  match s with
  | EmptyString => EmptyString
  | String c s' => String (lower_char c) (lower s')
  end.

Fixpoint contains (c : ascii) (s : string) : bool :=
  match s with
  | EmptyString => false
  | String d s' => Ascii.eqb c d || contains c s'
  end.

Definition hex_digit (n : N) : ascii :=
  if (n <? 10)%N then chr (48 + n) else chr (87 + n).

(** [\xNN] with lowercase hexadecimal digits *)
Definition hex_escape (c : ascii) : string :=
  let n := ord c in
  String "\" (String "x" (String (hex_digit (n / 16)) (String (hex_digit (n mod 16)) EmptyString))).

(** [str.isprintable] on one code point below 256 *)
Definition isprintable (c : ascii) : bool :=
  let n := ord c in
  ((32 <=? n) && (n <=? 126))%N || ((161 <=? n) && negb (n =? 173))%N.

Definition single_quote : ascii := "'"%char.
Definition double_quote : ascii := chr 34.

(** [repr] prefers single quotes and takes double quotes only for a text
    that has a single quote and no double quote. *)
Definition quote_for (s : string) : ascii :=
  if contains single_quote s && negb (contains double_quote s)
  then double_quote else single_quote.

(** One character of [repr]; [wide] tells a [str] from a [bytes] literal,
    where every byte from 0x7f on is escaped. *)
Definition repr_char (wide : bool) (q c : ascii) : string :=
  let n := ord c in
  if Ascii.eqb c q || Ascii.eqb c "\" then String "\" (String c EmptyString)
  else if (n =? 9)%N then "\t"
  else if (n =? 10)%N then "\n"
  else if (n =? 13)%N then "\r"
  else if wide && isprintable c then String c EmptyString
  else if negb wide && ((32 <=? n) && (n <? 127))%N then String c EmptyString
  else hex_escape c.

Fixpoint repr_body (wide : bool) (q : ascii) (s : string) : string :=
  match s with
  | EmptyString => EmptyString
  | String c s' => repr_char wide q c ++ repr_body wide q s'
  end.

Definition repr_str (s : string) : string :=
  let q := quote_for s in
  String q (repr_body true q s ++ String q EmptyString).

Definition repr_bytes (s : string) : string :=
  let q := quote_for s in
  String "b" (String q (repr_body false q s ++ String q EmptyString)).

(** [sys.int_info.default_max_str_digits], the limit of Python 3.11 and
    later on the digits of an integer turned into text *)
Definition max_str_digits : nat := 4300.

Definition int_str_limit_message : string :=
  "Exceeds the limit (4300 digits) for integer string conversion; use sys.set_int_max_str_digits() to increase the limit".

(** [repr] of an [int]: its decimal digits; a number of more than
    [max_str_digits] digits is refused with [ValueError].  A hexadecimal
    literal can denote such a number. *)
Definition repr_int (n : N) : result string :=
  let digits := NilZero.string_of_uint (N.to_uint n) in
  if Nat.ltb max_str_digits (String.length digits)
  then Raise (ValueError int_str_limit_message)
  else Ok digits.

Definition newline : string := String (chr 10) EmptyString.
Definition tab : string := String (chr 9) EmptyString.

Fixpoint startswith (s prefix : string) : bool :=
  match prefix, s with
  | EmptyString, _ => true
  | String p prefix', String c s' => Ascii.eqb c p && startswith s' prefix'
  | String _ _, EmptyString => false
  end.

Fixpoint endswith (s suffix : string) {struct s} : bool :=
  String.eqb s suffix ||
  match s with
  | EmptyString => false
  | String _ s' => endswith s' suffix
  end.

(** [s.replace(old, new)] for an [old] of one character *)
Fixpoint replace (s : string) (old : ascii) (new : string) : string :=
  match s with
  | EmptyString => EmptyString
  | String c s' =>
      ((if Ascii.eqb c old then new else String c EmptyString) ++ replace s' old new)%string
  end.

(** [sep.join(items)] *)
Fixpoint join (sep : string) (items : list string) : string :=
  match items with
  | [] => EmptyString
  | [x] => x
  | x :: rest => (x ++ sep ++ join sep rest)%string
  end.

(** [os.path.join(a, *p)] in its POSIX flavour, [posixpath.join]: an
    absolute piece restarts the path.  On Windows [os.path.join] is
    [ntpath.join], which joins with a backslash and knows drive letters:
    that flavour is not modelled. *)
Definition path_join (a : string) (p : list string) : string :=
  fold_left
    (fun path b =>
       if startswith b "/" then b
       else if String.eqb path "" || endswith path "/" then (path ++ b)%string
       else (path ++ "/" ++ b)%string)
    p a.

(** [sub in s] *)
Fixpoint in_str (sub s : string) : bool :=
  startswith s sub ||
  match s with
  | EmptyString => false
  | String _ s' => in_str sub s'
  end.

(** *** [fnmatch.fnmatchcase]

    The wildcards [*] and [?]; every other character stands for itself
    (bracket expressions are left out: no pattern of the checker has one). *)
Fixpoint fnmatchcase (name pat : string) {struct pat} : bool :=
  match pat with
  | EmptyString =>
      match name with EmptyString => true | String _ _ => false end
  | String p pat' =>
      if Ascii.eqb p "*" then
        (fix star (n : string) : bool :=
           fnmatchcase n pat' ||
           match n with
           | EmptyString => false
           | String _ n' => star n'
           end) name
      else
        match name with
        | EmptyString => false
        | String c name' =>
            (Ascii.eqb p "?" || Ascii.eqb p c) && fnmatchcase name' pat'
        end
  end.

(** *** [pathlib.PurePosixPath] *)

(** [s.split(sep)] for a separator of one character, the pieces in
    order; [cur] is the piece being read *)
Fixpoint split_on (sep : ascii) (s : string) (cur : string) : list string :=
  match s with
  | EmptyString => [cur]
  | String c s' =>
      if Ascii.eqb c sep then cur :: split_on sep s' EmptyString
      else split_on sep s' (cur ++ String c EmptyString)
  end.

Definition split (s : string) (sep : ascii) : list string :=
  split_on sep s EmptyString.

Fixpoint lstrip_sep (s : string) : string :=
  match s with
  | String c s' => if Ascii.eqb c "/" then lstrip_sep s' else s
  | EmptyString => EmptyString
  end.

(** the root of a path and what follows it: exactly two leading slashes
    are kept, any other number collapses to one *)
Definition splitroot (part : string) : string * string :=
  match part with
  | String c _ =>
      if Ascii.eqb c "/" then
        let stripped := lstrip_sep part in
        if Nat.eqb (String.length part - String.length stripped)%nat 2
        then ("//", stripped) else ("/", stripped)
      else ("", part)
  | EmptyString => ("", part)
  end.

Definition keep_component (x : string) : bool :=
  negb (String.eqb x "") && negb (String.eqb x ".").

Record PurePath : Type := mkPath { root : string; parts : list string }.

(** [parts] holds the root, when there is one, as its first element. *)
Definition Path (s : string) : PurePath :=
  let '(r, rel) := splitroot s in
  let comps := filter keep_component (split rel "/") in
  mkPath r (if String.eqb r "" then comps else r :: comps).

Fixpoint zip_match (rparts rpats : list string) : bool :=
  match rparts, rpats with
  | part :: rparts', pat :: rpats' =>
      fnmatchcase part pat && zip_match rparts' rpats'
  | _, _ => true
  end.

(** [PurePath.match]: a relative pattern is matched from the right, an
    anchored one against the whole path; an empty pattern is an error. *)
Definition Path_match (p : PurePath) (path_pattern : string) : result bool :=
  let pat := Path path_pattern in
  match parts pat with
  | [] => Raise (ValueError "empty pattern")
  | _ :: pat_tail =>
      if negb (String.eqb (root pat) "") && negb (String.eqb (root pat) (root p))
      then Ok false
      else if negb (String.eqb (root pat) "") then
        if negb (Nat.eqb (List.length (parts pat)) (List.length (parts p))) then Ok false
        else Ok (zip_match (rev (parts p)) (rev pat_tail))
      else if Nat.ltb (List.length (parts p)) (List.length (parts pat)) then Ok false
      else Ok (zip_match (rev (parts p)) (rev (parts pat)))
  end.

End Py.


(** ** astroid nodes, as far as the checker reads them *)

Module Astroid.

Set Warnings "-register-all".

(** the value of a [Const] node; a float or complex constant is kept as
    its [repr] text, the formatting of floats being outside this model *)
Inductive pyconst : Type :=
| PyStr (s : string)
| PyBytes (s : string)
| PyInt (n : N)
| PyBool (b : bool)
| PyNone
| PyEllipsis
| PyNumber (text : string).

(** [AssignName] and [Const] are leaves; every other node class is a
    [NodeNG] with its class name, its [name] attribute when the class has
    one, its line, its children in source order and its source text. *)
Inductive node : Type :=
| AssignName (name : string) (lineno : nat)
| Const (value : pyconst) (lineno : nat)
| NodeNG (cls : string) (name : option string) (lineno : nat)
         (children : list node) (source : string).

Definition get_children (n : node) : list node :=
  match n with
  | NodeNG _ _ _ children _ => children
  | _ => []
  end.

Definition lineno (n : node) : nat :=
  match n with
  | AssignName _ l => l
  | Const _ l => l
  | NodeNG _ _ l _ _ => l
  end.

Definition is_AssignName (n : node) : bool :=
  match n with AssignName _ _ => true | _ => false end.

Definition is_Const (n : node) : bool :=
  match n with Const _ _ => true | _ => false end.

(** attribute access [n.name] *)
Definition get_name (n : node) : result string :=
  match n with
  | AssignName name _ => Ok name
  | NodeNG _ (Some name) _ _ _ => Ok name
  | _ => Raise (AttributeError "name")
  end.

(** [Const.as_string] is [repr(value)], and [...] for the ellipsis; it
    raises where [repr] does, on an integer of too many digits *)
Definition Const_as_string (v : pyconst) : result string :=
  match v with
  | PyStr s => Ok (Py.repr_str s)
  | PyBytes s => Ok (Py.repr_bytes s)
  | PyInt n => Py.repr_int n
  | PyBool true => Ok "True"
  | PyBool false => Ok "False"
  | PyNone => Ok "None"
  | PyEllipsis => Ok "..."
  | PyNumber text => Ok text
  end.

Definition as_string (n : node) : result string :=
  match n with
  | AssignName name _ => Ok name
  | Const v _ => Const_as_string v
  | NodeNG _ _ _ _ source => Ok source
  end.

(** a class definition: [basenames], [body], its own line, and the file of
    the module it belongs to ([node.root().file], the path pylint was given
    for the module) *)
Record ClassDef : Type := mkClassDef {
  class_name : string;
  basenames : list string;
  body : list node;
  class_lineno : nat;
  file : string
}.

End Astroid.
Import Astroid.

(** ** pylint: messages and the checker monad *)

(** the node a message is attached to *)
Inductive msg_node : Type :=
| OnStatement (attr : node)
| OnClass (cls : ClassDef).

(** one call of [add_message]: the symbol, the node and the [line]
    argument when it is passed *)
Record Message : Type := mkMessage {
  symbol : string;
  at_node : msg_node;
  line : option nat
}.

(** pylint takes the line from the node when [line] is not given *)
Definition message_line (m : Message) : nat :=
  match line m with
  | Some l => l
  | None =>
      match at_node m with
      | OnStatement attr => lineno attr
      | OnClass cls => class_lineno cls
      end
  end.

(** a computation on a state [S] that returns a value or raises *)
Definition M (S A : Type) : Type := S -> result A * S.

Definition ret {S A : Type} (a : A) : M S A := fun s => (Ok a, s).

Definition bind {S A B : Type} (c : M S A) (k : A -> M S B) : M S B :=
  fun s =>
    match c s with
    | (Ok a, s') => k a s'
    | (Raise e, s') => (Raise e, s')
    end.

Definition lift {S A : Type} (r : result A) : M S A := fun s => (r, s).

Definition raise {S A : Type} (e : exn) : M S A := fun s => (Raise e, s).

(** a checker method runs on the messages reported so far *)
Definition Checker (A : Type) : Type := M (list Message) A.

Declare Scope m_scope.
Delimit Scope m_scope with m.
Notation "x <- c ;; k" := (bind c (fun x => k))
  (at level 61, c at next level, right associativity) : m_scope.
Notation "c ;; k" := (bind c (fun _ => k))
  (at level 61, right associativity) : m_scope.
Notation "x <~ r ;; k" := (rbind r (fun x => k))
  (at level 61, r at next level, right associativity).

(** [children[i]] *)
Definition index {A : Type} (l : list A) (i : nat) : result A :=
  match nth_error l i with
  | Some a => Ok a
  | None => Raise IndexError
  end.

(** ** The checker [PackageName] *)

Module PackageName.

Definition name : string := "conan-package-name".

(** the message table [msgs]: id, text, symbol, help *)
Definition msgs : list (string * (string * string * string)) :=
  [ ("E9004", ("Reference name should be all lowercase",
               "conan-bad-name",
               "Use only lower-case on the package name: `name = 'foobar'`."));
    ("E9005", ("Missing name attribute",
               "conan-missing-name",
               "The member attribute `name` must be declared: `name = 'foobar'`."));
    ("E9007", ("No 'name' attribute in test_package conanfile",
               "conan-test-no-name",
               "No 'name' attribute in test_package conanfile.")) ].

Definition known_symbol (sym : string) : bool :=
  existsb (fun '(_, (_, s, _)) => String.eqb s sym) msgs.

(** [self.add_message(symbol, node=..., line=...)]: an unknown symbol is
    an error, a known one is reported *)
Definition add_message (sym : string) (n : msg_node) (l : option nat) : Checker unit :=
  fun ms =>
    if known_symbol sym then (Ok tt, ms ++ [mkMessage sym n l])
    else (Raise (UnknownMessageError sym), ms).

(** lines 34-35: the two [Path.match] calls joined by [or] *)
Definition is_test (file : string) : result bool :=
  let filename := Py.Path file in
  m <~ Py.Path_match filename "test_package/*.py" ;;
  if m then Ok true else Py.Path_match filename "test_v1_package/*.py".

Fixpoint list_string_eqb (a b : list string) : bool :=
  match a, b with
  | [], [] => true
  | x :: a', y :: b' => String.eqb x y && list_string_eqb a' b'
  | _, _ => false
  end.

(** lines 40-43: the condition on one body statement, its conjuncts
    evaluated left to right and only as far as needed *)
Definition attr_condition (children : list node) : result bool :=
  if negb (Nat.eqb (List.length children) 2) then Ok false else
  c0 <~ index children 0 ;;
  if negb (is_AssignName c0) then Ok false else
  n <~ get_name c0 ;;
  if negb (String.eqb n "name") then Ok false else
  c1 <~ index children 1 ;;
  Ok (is_Const c1).

Local Open Scope m_scope.

(** lines 38-50: the [for] loop; the result tells whether the method
    returned from inside the loop *)
Fixpoint scan_body (is_test : bool) (body : list node) : Checker bool :=
  match body with
  | [] => ret false
  | attr :: rest =>
      let children := get_children attr in
      c <- lift (attr_condition children) ;;
      if c then
        if is_test then
          add_message "conan-test-no-name" (OnStatement attr) (Some (lineno attr)) ;;
          ret true
        else
          c1 <- lift (index children 1) ;;
          value <- lift (as_string c1) ;;
          (if negb (String.eqb (Py.lower value) value)
           then add_message "conan-bad-name" (OnStatement attr) (Some (lineno attr))
           else ret tt) ;;
          ret true
      else scan_body is_test rest
  end.

Definition visit_classdef (node : ClassDef) : Checker unit :=
  is_test <- lift (is_test (file node)) ;;
  if list_string_eqb (basenames node) ["ConanFile"] then
    returned <- scan_body is_test (body node) ;;
    if returned then ret tt
    else if negb is_test then add_message "conan-missing-name" (OnClass node) None
    else ret tt
  else ret tt.

End PackageName.
Import PackageName.


(** ** What the checker is expected to do, in the words of the specification *)

(** A qualifying assignment: a statement with exactly two children, an
    assignment target called [name] and a literal constant. *)
Definition qualifies (attr : node) : bool :=
  match get_children attr with
  | [AssignName n _; Const _ _] => String.eqb n "name"
  | _ => false
  end.

(** the messages one visit adds *)
Definition reports (cls : ClassDef) : list Message :=
  snd (visit_classdef cls []).

Definition msg_test_no_name (attr : node) : Message :=
  mkMessage "conan-test-no-name" (OnStatement attr) (Some (lineno attr)).

Definition msg_bad_name (attr : node) : Message :=
  mkMessage "conan-bad-name" (OnStatement attr) (Some (lineno attr)).

Definition msg_missing_name (cls : ClassDef) : Message :=
  mkMessage "conan-missing-name" (OnClass cls) None.

Definition set_body (cls : ClassDef) (b : list node) : ClassDef :=
  mkClassDef (class_name cls) (basenames cls) b (class_lineno cls) (file cls).

(** the first qualifying statement of a body, with the constant it assigns *)
Fixpoint first_qualifying (body : list node) : option (node * pyconst) :=
  match body with
  | [] => None
  | attr :: rest =>
      match get_children attr with
      | [AssignName n _; Const v _] =>
          if String.eqb n "name" then Some (attr, v) else first_qualifying rest
      | _ => first_qualifying rest
      end
  end.

(** [value.lower() != value] is false *)
Definition lowercase_text (value : string) : bool :=
  String.eqb (Py.lower value) value.

(** the four outcomes of the specification's invariant *)
Inductive outcome : Type :=
| CorrectlyNamed
| BadlyCased
| MissingAttribute
| TestPackageExempt.

Definition outcome_holds (cls : ClassDef) (emitted : list Message) (o : outcome) : Prop :=
  match o with
  | CorrectlyNamed =>
      is_test (file cls) = Ok false /\
      (exists attr v value,
          first_qualifying (body cls) = Some (attr, v) /\
          Const_as_string v = Ok value /\
          lowercase_text value = true) /\
      emitted = []
  | BadlyCased =>
      is_test (file cls) = Ok false /\
      exists attr v value,
        first_qualifying (body cls) = Some (attr, v) /\
        Const_as_string v = Ok value /\
        lowercase_text value = false /\
        emitted = [msg_bad_name attr]
  | MissingAttribute =>
      is_test (file cls) = Ok false /\
      first_qualifying (body cls) = None /\
      emitted = [msg_missing_name cls]
  | TestPackageExempt =>
      is_test (file cls) = Ok true /\
      emitted = match first_qualifying (body cls) with
                | Some (attr, _) => [msg_test_no_name attr]
                | None => []
                end
  end.

(** the messages of the scan, once a qualifying statement is met *)
Definition hit_messages (t : bool) (attr : node) (v : pyconst) : list Message :=
  if t then [msg_test_no_name attr]
  else match Const_as_string v with
       | Ok value => if lowercase_text value then [] else [msg_bad_name attr]
       | Raise _ => []
       end.

(** how the scan ends at a qualifying statement: in a test package the
    constant is not rendered *)
Definition hit_result (t : bool) (v : pyconst) : result unit :=
  if t then Ok tt
  else match Const_as_string v with
       | Ok _ => Ok tt
       | Raise e => Raise e
       end.

(** the messages of one visit, read off the class definition *)
Definition expected (cls : ClassDef) (t : bool) : list Message :=
  if list_string_eqb (basenames cls) ["ConanFile"] then
    match first_qualifying (body cls) with
    | Some (attr, v) => hit_messages t attr v
    | None => if t then [] else [msg_missing_name cls]
    end
  else [].

(** the result of one visit, read off the class definition *)
Definition expected_result (cls : ClassDef) (t : bool) : result unit :=
  if list_string_eqb (basenames cls) ["ConanFile"] then
    match first_qualifying (body cls) with
    | Some (_, v) => hit_result t v
    | None => Ok tt
    end
  else Ok tt.

(** the result of a visit *)
Definition outcome_of (cls : ClassDef) : result unit :=
  fst (visit_classdef cls []).

(** an integer constant of more digits than [repr] accepts *)
Definition oversized (v : pyconst) : Prop :=
  exists n, v = PyInt n /\
            Py.max_str_digits <
            String.length (NilZero.string_of_uint (N.to_uint n)).

(** outside a test package, the first qualifying statement gives [name]
    such a constant *)
Definition oversized_name (cls : ClassDef) : Prop :=
  is_test (file cls) = Ok false /\
  exists attr v, first_qualifying (body cls) = Some (attr, v) /\ oversized v.


(** a pattern without wildcard *)
Fixpoint literal (pat : string) : bool :=
  match pat with
  | EmptyString => true
  | String c pat' =>
      negb (Ascii.eqb c "*") && negb (Ascii.eqb c "?") && literal pat'
  end.

Definition non_qualifying (body : list node) : Prop :=
  Forall (fun a => qualifies a = false) body.

(** ** The recipe [TkConan]

    The [build] and [package] steps and the helpers they call.  The
    helpers of [conan.tools] and the build tools are calls to the outside:
    each one is recorded in the order it is made, and the outside decides
    whether it succeeds. *)

Module TkConan.

Definition name : string := "tk".

(** every name bound in the body of the class, in source order *)
Definition class_attributes : list string :=
  [ "name"; "description"; "license"; "url"; "homepage"; "topics";
    "package_type"; "settings"; "options"; "default_options";
    "_settings_build"; "export_sources"; "config_options"; "configure";
    "layout"; "requirements"; "build_requirements"; "validate"; "source";
    "generate"; "_get_default_build_system_subdir"; "_get_configure_dir";
    "_patch_sources"; "_build_nmake"; "_get_autotools_args"; "build";
    "package"; "package_info" ].

Record Settings : Type := mkSettings {
  os : string;
  arch : string;
  compiler : string;
  build_type : string
}.

(** what the framework hands to the recipe for one configuration *)
Record Conf : Type := mkConf {
  settings : Settings;
  shared : bool;
  version : string;
  source_folder : string;
  package_folder : string;
  tcl_rootpath : string;
  TCL_LIBRARY : string;
  is_msvc_static_runtime : bool;
  msvc_runtime_flag : string
}.

(** a call to a helper of [conan.tools] or to a build tool *)
Inductive call : Type :=
| apply_conandata_patches
| replace_in_file (file_path search replace : string)
| run (command cwd : string)
| Autotools_configure (build_script_folder : string)
| Autotools_make (target : option string) (args : list string)
| rmdir (path : string)
| fix_apple_shared_install_name.

(** the calls that start a build tool *)
Definition is_build_tool (c : call) : bool :=
  match c with
  | run _ _ | Autotools_configure _ | Autotools_make _ _ => true
  | _ => false
  end.

(** the outside: which calls succeed, and the file system as the recipe
    reads it *)
Record World : Type := mkWorld {
  succeeds : call -> bool;
  listdir : string -> option (list string);
  path_exists : string -> bool
}.

Definition Recipe (A : Type) : Type := M (list call) A.

(** an attribute of the instance, called with its arguments *)
Definition attribute : Type := list string -> Recipe string.

(** the attributes the instance has beside those of the class body: the
    ones inherited from [ConanFile] or set by the framework *)
Definition Base : Type := string -> option attribute.

Local Open Scope m_scope.

(** the call is recorded, then fails or not *)
Definition invoke (w : World) (c : call) : Recipe unit :=
  fun tr =>
    (if succeeds w c then Ok tt else Raise (ConanException "call failed"),
     tr ++ [c]).

(** [self.attr] for a name the class body does not bind *)
Definition getattr (base : Base) (attr : string) : Recipe attribute :=
  match base attr with
  | Some a => ret a
  | None => raise (AttributeError attr)
  end.

Fixpoint dict_get (d : list (string * string)) (key : string) : result string :=
  match d with
  | [] => Raise (KeyError key)
  | (k, v) :: d' => if String.eqb k key then Ok v else dict_get d' key
  end.

Fixpoint for_each {A : Type} (l : list A) (f : A -> Recipe unit) : Recipe unit :=
  match l with
  | [] => ret tt
  | x :: l' => f x ;; for_each l' f
  end.

Definition _get_default_build_system_subdir (c : Conf) : result string :=
  dict_get [ ("Macos", "macosx");
             ("FreeBSD", "unix");
             ("Linux", "unix");
             ("Windows", "win") ]
           (os (settings c)).

Definition _get_configure_dir (c : Conf) (build_system_subdir : option string)
  : result string :=
  sub <~ match build_system_subdir with
         | None => _get_default_build_system_subdir c
         | Some s => Ok s
         end ;;
  Ok (Py.path_join (source_folder c) [sub]).

Definition _patch_sources (base : Base) (w : World) (c : Conf) : Recipe unit :=
  invoke w apply_conandata_patches ;;
  for_each ["unix"; "win"] (fun build_system =>
    f <- getattr base "_get_configure_folder" ;;
    config_dir <- f [build_system] ;;
    (if negb (String.eqb build_system "win") then
       invoke w (replace_in_file (Py.path_join config_dir ["configure"])
                   "(sizeof(${tcl_type_64bit})==sizeof(long))"
                   "(sizeof(${tcl_type_64bit})!=sizeof(long))")
     else ret tt) ;;
    let makefile_in := Py.path_join config_dir ["Makefile.in"] in
    invoke w (replace_in_file makefile_in
                (Py.newline ++ "LDFLAGS" ++ Py.tab)
                (Py.newline ++ "#LDFLAGS" ++ Py.tab)) ;;
    invoke w (replace_in_file makefile_in "${CFLAGS}" "${CFLAGS} ${CPPFLAGS}")) ;;
  a <- getattr base "_source_subfolder" ;;
  sub <- a [] ;;
  let rules_ext_vc := Py.path_join (source_folder c) [sub; "win"; "rules-ext.vc"] in
  invoke w (replace_in_file rules_ext_vc
              (Py.newline ++ "_RULESDIR = ")
              (Py.newline ++ "_RULESDIR = ." ++ Py.newline ++ "#_RULESDIR = ")) ;;
  a <- getattr base "_source_subfolder" ;;
  sub <- a [] ;;
  let rules_vc := Py.path_join (source_folder c) [sub; "win"; "rules.vc"] in
  invoke w (replace_in_file rules_vc "$(_TCLDIR)\generic" "$(_TCLDIR)\include") ;;
  invoke w (replace_in_file rules_vc
              (Py.newline ++ "TCLSTUBLIB") (Py.newline ++ "#TCLSTUBLIB")) ;;
  invoke w (replace_in_file rules_vc
              (Py.newline ++ "TCLIMPLIB") (Py.newline ++ "#TCLIMPLIB")) ;;
  f <- getattr base "_get_configure_folder" ;;
  win_dir <- f ["win"] ;;
  let win_makefile_in := Py.path_join win_dir ["Makefile.in"] in
  invoke w (replace_in_file win_makefile_in
              (Py.newline ++ "TCL_GENERIC_DIR") (Py.newline ++ "#TCL_GENERIC_DIR")) ;;
  a <- getattr base "_source_subfolder" ;;
  sub <- a [] ;;
  let win_rules_vc := Py.path_join sub ["win"; "rules.vc"] in
  invoke w (replace_in_file win_rules_vc
              (Py.newline ++ "cwarn = $(cwarn) -WX")
              (Py.newline ++ "# cwarn = $(cwarn) -WX")) ;;
  invoke w (replace_in_file win_rules_vc
              "OPTIMIZATIONS  = $(OPTIMIZATIONS) -GL"
              "# OPTIMIZATIONS  = $(OPTIMIZATIONS) -GL").

(** ["".join(self.version.split(".")[:2])] *)
Definition version_infix (c : Conf) : string :=
  Py.join "" (firstn 2 (Py.split (version c) ".")).

(** the loop over [os.listdir(tcl_lib_path)] *)
Definition find_tcl_libs (c : Conf) (tcl_lib_path : string) (libs : list string)
  : option string * option string :=
  fold_left
    (fun '(tclimplib, tclstublib) lib =>
       if negb (Py.endswith lib ".lib") then (tclimplib, tclstublib)
       else if Py.startswith lib ("tcl" ++ version_infix c)
            then (Some (Py.path_join tcl_lib_path [lib]), tclstublib)
       else if Py.startswith lib ("tclstub" ++ version_infix c)
            then (tclimplib, Some (Py.path_join tcl_lib_path [lib]))
       else (tclimplib, tclstublib))
    libs (None, None).

Definition quoted (s : string) : string :=
  String Py.double_quote (s ++ String Py.double_quote EmptyString).

Definition _build_nmake (base : Base) (w : World) (c : Conf) (target : string)
  : Recipe unit :=
  let opts := [] in
  let opts := if negb (shared c) then opts ++ ["static"] else opts in
  let opts := if String.eqb (build_type (settings c)) "Debug"
              then opts ++ ["symbols"] else opts in
  let opts := if is_msvc_static_runtime c
              then opts ++ ["nomsvcrt"] else opts ++ ["msvcrt"] in
  let opts := if negb (Py.contains "d" (msvc_runtime_flag c))
              then opts ++ ["unchecked"] else opts in
  let tcl_lib_path := Py.path_join (tcl_rootpath c) ["lib"] in
  libs <- match listdir w tcl_lib_path with
          | Some l => ret l
          | None => raise (OSError tcl_lib_path)
          end ;;
  match find_tcl_libs c tcl_lib_path libs with
  | (Some tclimplib, Some tclstublib) =>
      let tcldir := Py.replace (tcl_rootpath c) "/" "\\" in
      cfgdir <- lift (_get_configure_dir c (Some "win")) ;;
      let command :=
        ("nmake -nologo -f " ++ quoted (cfgdir ++ "/makefile.vc")
         ++ " INSTALLDIR=" ++ quoted (package_folder c)
         ++ " OPTS=" ++ Py.join "," opts
         ++ " TCLDIR=" ++ quoted tcldir
         ++ " TCL_LIBRARY=" ++ quoted (Py.replace (TCL_LIBRARY c) "\" "/")
         ++ " TCLIMPLIB=" ++ quoted tclimplib
         ++ " TCLSTUBLIB=" ++ quoted tclstublib
         ++ " " ++ target)%string in
      f <- getattr base "_get_configure_folder" ;;
      cwd <- f ["win"] ;;
      invoke w (run command cwd)
  | _ => raise (ConanException "tcl dependency misses tcl and/or tclstub library")
  end.

Definition _get_autotools_args (c : Conf) : list string :=
  [ Py.replace ("TCL_GENERIC_DIR=" ++ Py.path_join (tcl_rootpath c) ["include"])
               "\" "/" ].

Definition build (base : Base) (w : World) (c : Conf) : Recipe unit :=
  _patch_sources base w c ;;
  if String.eqb (compiler (settings c)) "Visual Studio" then
    _build_nmake base w c "release"
  else
    dir <- lift (_get_configure_dir c None) ;;
    invoke w (Autotools_configure dir) ;;
    invoke w (Autotools_make None (_get_autotools_args c)).

Definition package (base : Base) (w : World) (c : Conf) : Recipe unit :=
  copy <- getattr base "copy" ;;
  a <- getattr base "_source_subfolder" ;;
  src <- a [] ;;
  copy ["license.terms"; src; "licenses"] ;;
  (if String.eqb (compiler (settings c)) "Visual Studio" then
     _build_nmake base w c "install"
   else
     invoke w (Autotools_make (Some "install") (_get_autotools_args c)) ;;
     invoke w (Autotools_make (Some "install-private-headers") (_get_autotools_args c)) ;;
     invoke w (rmdir (Py.path_join (package_folder c) ["lib"; "pkgconfig"])) ;;
     invoke w (rmdir (Py.path_join (package_folder c) ["man"])) ;;
     invoke w (rmdir (Py.path_join (package_folder c) ["share"]))) ;;
  let tkConfigShPath := Py.path_join (package_folder c) ["lib"; "tkConfig.sh"] in
  (if path_exists w tkConfigShPath then
     let pkg_path := Py.replace (Py.path_join (package_folder c) []) "\" "/" in
     invoke w (replace_in_file tkConfigShPath pkg_path "${TK_ROOT}") ;;
     invoke w (replace_in_file tkConfigShPath
                 (Py.newline ++ "TK_BUILD_") (Py.newline ++ "#TK_BUILD_")) ;;
     invoke w (replace_in_file tkConfigShPath
                 (Py.newline ++ "TK_SRC_DIR") (Py.newline ++ "#TK_SRC_DIR"))
   else ret tt) ;;
  invoke w fix_apple_shared_install_name.

(** *** Options and settings before the build *)

(** the two options of the recipe; [fPIC] can be removed *)
Record Options : Type := mkOptions {
  opt_shared : bool;
  fPIC : option bool
}.

(** [del self.options.fPIC].  What the framework does when the option is
    not there differs between its versions (an error in some, nothing in
    others); that case is left to [on_absent]. *)
Definition del_fPIC (on_absent : Options -> result Options) (o : Options)
  : result Options :=
  match fPIC o with
  | Some _ => Ok (mkOptions (opt_shared o) None)
  | None => on_absent o
  end.

(** [self.options.rm_safe("fPIC")]: the option is removed, and nothing
    happens when it is not there *)
Definition rm_safe_fPIC (o : Options) : Options :=
  match fPIC o with
  | Some _ => mkOptions (opt_shared o) None
  | None => o
  end.

(** the sub-settings by their dotted names, and [self.settings.rm_safe] *)
Definition SubSettings : Type := list (string * string).

Definition settings_rm_safe (sub : SubSettings) (key : string) : SubSettings :=
  filter (fun '(k, _) => negb (String.eqb k key)) sub.

Definition config_options (on_absent : Options -> result Options)
           (s : Settings) (o : Options) : result Options :=
  if String.eqb (os s) "Windows" then del_fPIC on_absent o else Ok o.

Definition configure (o : Options) (sub : SubSettings) : Options * SubSettings :=
  let o := if opt_shared o then rm_safe_fPIC o else o in
  let sub := settings_rm_safe sub "compiler.libcxx" in
  let sub := settings_rm_safe sub "compiler.cppstd" in
  (o, sub).

(** *** [package_info] *)

Record CppInfo : Type := mkCppInfo {
  libs : list string;
  frameworks : list string;
  system_libs : list string
}.

(** what [package_info] leaves behind: [cpp_info], the variables defined
    in [runenv_info] and in [env_info], and the lines written to the output *)
Record PackageInfo : Type := mkPackageInfo {
  cpp_info : CppInfo;
  runenv_info : list (string * string);
  env_info : list (string * string);
  output_info : list string
}.

(** [runtime] is [self.settings.compiler.runtime]; [major] and [minor] are
    the texts of [Version(self.version).major] and [.minor] *)
Definition package_info (c : Conf) (runtime major minor : string) : PackageInfo :=
  let '(lib_infix, tk_suffix) :=
    if String.eqb (compiler (settings c)) "Visual Studio" then
      ((major ++ minor)%string,
       ("t" ++ (if shared c then "" else "s")
            ++ (if String.eqb (build_type (settings c)) "Debug" then "g" else "")
            ++ (if Py.in_str "MD" runtime && negb (shared c) then "x" else ""))%string)
    else
      ((major ++ "." ++ minor)%string, EmptyString) in
  let the_libs := [("tk" ++ lib_infix ++ tk_suffix)%string;
                   ("tkstub" ++ lib_infix)%string] in
  let '(the_frameworks, the_system_libs) :=
    if String.eqb (os (settings c)) "Macos" then
      (["CoreFoundation"; "Cocoa"; "Carbon"; "IOKit"], [])
    else if String.eqb (os (settings c)) "Windows" then
      ([], ["netapi32"; "kernel32"; "user32"; "advapi32"; "userenv";
            "ws2_32"; "gdi32"; "comdlg32"; "imm32"; "comctl32"; "shell32";
            "uuid"; "ole32"; "oleaut32"])
    else ([], []) in
  let tk_library :=
    Py.replace
      (Py.path_join (package_folder c)
         ["lib"; (name ++ Py.join "." (firstn 2 (Py.split (version c) ".")))%string])
      "\" "/" in
  let tcl_root := Py.replace (package_folder c) "\" "/" in
  mkPackageInfo
    (mkCppInfo the_libs the_frameworks the_system_libs)
    [("TK_LIBRARY", tk_library); ("TCL_ROOT", tcl_root)]
    [("TK_LIBRARY", tk_library); ("TCL_ROOT", tcl_root)]
    [("Setting TK_LIBRARY environment variable: " ++ tk_library)%string;
     ("Setting TCL_ROOT environment variable: " ++ tcl_root)%string].

End TkConan.

(** ** Sample inputs *)

Module Samples.

(** the text of a constant, where it has one *)
Definition text_of (v : pyconst) : string :=
  match Const_as_string v with
  | Ok text => text
  | Raise _ => "<int>"
  end.

(** [target = v] on line [l] *)
Definition assign (l : nat) (target : string) (v : pyconst) : node :=
  NodeNG "Assign" None l [AssignName target l; Const v l]
         (target ++ " = " ++ text_of v).

(** [target = foo()] on line [l] *)
Definition assign_call (l : nat) (target : string) : node :=
  NodeNG "Assign" None l
         [AssignName target l;
          NodeNG "Call" None l [NodeNG "Name" (Some "foo") l [] "foo"] "foo()"]
         (target ++ " = foo()").

(** [target: str = v] on line [l]: three children *)
Definition ann_assign (l : nat) (target : string) (v : pyconst) : node :=
  NodeNG "AnnAssign" None l
         [AssignName target l; NodeNG "Name" (Some "str") l [] "str"; Const v l]
         (target ++ ": str = " ++ text_of v).

(** the number written [0x1] followed by 3600 zeros: 4335 decimal digits *)
Definition huge_int : N := N.shiftl 1 14400.

(** [name = 0x1000...] on line [l] *)
Definition huge_assign (l : nat) : node :=
  NodeNG "Assign" None l [AssignName "name" l; Const (PyInt huge_int) l]
         "name = 0x1000".

Definition recipe_file : string := "recipes/foo/all/conanfile.py".
Definition test_file : string := "recipes/foo/all/test_package/conanfile.py".
Definition test_v1_file : string := "recipes/foo/all/test_v1_package/conanfile.py".
Definition stub_file : string := "recipes/foo/all/test_package/conanfile.pyi".

Definition FooConan (b : list node) : ClassDef :=
  mkClassDef "FooConan" ["ConanFile"] b 1 recipe_file.

Definition TestConan (b : list node) : ClassDef :=
  mkClassDef "TestConan" ["ConanFile"] b 1 test_file.

Definition TwoBases (b : list node) : ClassDef :=
  mkClassDef "FooConan" ["ConanFile"; "Other"] b 1 recipe_file.

(** a base class with [copy] and without the two names the recipe misses *)
Definition conan1_base : TkConan.Base :=
  fun attr => if String.eqb attr "copy" then Some (fun _ => ret "") else None.

Definition all_succeed : TkConan.World :=
  TkConan.mkWorld (fun _ => true) (fun _ => Some []) (fun _ => false).

Definition linux_gcc : TkConan.Conf :=
  TkConan.mkConf (TkConan.mkSettings "Linux" "x86_64" "gcc" "Release")
                 false "8.6.10" "/build/src" "/package" "/deps/tcl"
                 "/deps/tcl/lib/tcl8.6" false "MD".

(** a base class that has [_get_configure_folder] and not [_source_subfolder] *)
Definition folder_base : TkConan.Base :=
  fun attr =>
    if String.eqb attr "_get_configure_folder"
    then Some (fun args => ret (Py.path_join "/build/src" args))
    else None.

Definition windows_msvc : TkConan.Conf :=
  TkConan.mkConf (TkConan.mkSettings "Windows" "x86_64" "Visual Studio" "Debug")
                 false "8.6.10" "C:\build\src" "C:\package" "C:/deps/tcl"
                 "C:\deps\tcl\lib\tcl8.6" false "MDd".

Definition android_clang : TkConan.Conf :=
  TkConan.mkConf (TkConan.mkSettings "Android" "armv8" "clang" "Release")
                 false "8.6.10" "/build/src" "/package" "/deps/tcl"
                 "/deps/tcl/lib/tcl8.6" false "".

(** a world where the [lib] folder of tcl holds both libraries *)
Definition tcl_libs_present : TkConan.World :=
  TkConan.mkWorld (fun _ => true)
                  (fun _ => Some ["tcl86t.dll"; "tcl86t.lib"; "tclstub86.lib"])
                  (fun _ => false).

Definition declared_options : TkConan.Options :=
  TkConan.mkOptions false (Some true).

Definition compiler_settings : TkConan.SubSettings :=
  [("compiler.version", "11"); ("compiler.libcxx", "libstdc++11");
   ("compiler.cppstd", "17")].

End Samples.

(** ** The library files [_build_nmake] looks for *)

(** an import library of tcl: [*.lib], named [tcl<major><minor>...] *)
Definition is_tcl_implib (c : TkConan.Conf) (lib : string) : bool :=
  Py.endswith lib ".lib"
  && Py.startswith lib ("tcl" ++ TkConan.version_infix c).

(** a stub library of tcl: [*.lib], named [tclstub<major><minor>...], and
    not taken for an import library *)
Definition is_tcl_stublib (c : TkConan.Conf) (lib : string) : bool :=
  Py.endswith lib ".lib"
  && negb (Py.startswith lib ("tcl" ++ TkConan.version_infix c))
  && Py.startswith lib ("tclstub" ++ TkConan.version_infix c).

(** the last element of a list that passes a test *)
Definition find_last {A : Type} (test : A -> bool) (l : list A) : option A :=
  find test (rev l).

Definition lookup_setting (sub : TkConan.SubSettings) (key : string) : option string :=
  option_map snd (find (fun '(k, _) => String.eqb k key) sub).
(** ** Lemmas on the standard-library model *)

Section PathFacts.

Lemma pattern_test_package :
  Py.Path "test_package/*.py" = Py.mkPath "" ["test_package"; "*.py"].
Proof. reflexivity. Qed.

Lemma pattern_test_v1_package :
  Py.Path "test_v1_package/*.py" = Py.mkPath "" ["test_v1_package"; "*.py"].
Proof. reflexivity. Qed.

Lemma Path_match_relative2 (p : Py.PurePath) (pat d n : string) :
  Py.Path pat = Py.mkPath "" [d; n] ->
  Py.Path_match p pat =
  Ok (negb (Nat.ltb (List.length (Py.parts p)) 2)
      && Py.zip_match (rev (Py.parts p)) [n; d]).
Proof.
  intros E. unfold Py.Path_match. rewrite E. simpl.
  destruct (Nat.ltb (List.length (Py.parts p)) 2); reflexivity.
Qed.

Lemma is_test_total (f : string) : exists b, is_test f = Ok b.
Proof.
  unfold is_test.
  rewrite (Path_match_relative2 _ _ _ _ pattern_test_package).
  rewrite (Path_match_relative2 _ _ _ _ pattern_test_v1_package).
  simpl.
  match goal with |- context [if ?c then _ else _] => destruct c end;
    eexists; reflexivity.
Qed.

End PathFacts.

(** ** Lemmas on the body scan *)

Section ScanFacts.

Lemma attr_condition_qualifies (attr : node) :
  attr_condition (get_children attr) = Ok (qualifies attr).
Proof.
  unfold attr_condition, qualifies.
  destruct (get_children attr) as [|c0 [|c1 [|c2 l]]]; try reflexivity;
    destruct c0 as [n l0| |]; try reflexivity;
    simpl; try destruct (String.eqb n "name"); simpl;
    destruct c1; reflexivity.
Qed.

Lemma qualifies_shape (attr : node) :
  qualifies attr = true <->
  exists l0 v l1, get_children attr = [AssignName "name" l0; Const v l1].
Proof.
  unfold qualifies. split.
  - destruct (get_children attr) as [|c0 [|c1 [|c2 l]]]; try discriminate;
      destruct c0 as [n l0| |]; try discriminate;
      destruct c1 as [|v l1|]; try discriminate.
    intros H. apply String.eqb_eq in H. subst n. eauto.
  - intros (l0 & v & l1 & E). rewrite E. reflexivity.
Qed.

Lemma scan_body_skip (t : bool) (attr : node) (rest : list node) (ms : list Message) :
  qualifies attr = false ->
  scan_body t (attr :: rest) ms = scan_body t rest ms.
Proof.
  intros Q. simpl. unfold bind, lift.
  rewrite attr_condition_qualifies, Q. reflexivity.
Qed.

Lemma scan_body_skip_all (t : bool) (pre rest : list node) (ms : list Message) :
  non_qualifying pre ->
  scan_body t (pre ++ rest) ms = scan_body t rest ms.
Proof.
  induction 1 as [|a pre Q _ IH]; [reflexivity|].
  rewrite <- app_comm_cons, scan_body_skip by exact Q. exact IH.
Qed.

Lemma scan_body_none (t : bool) (body : list node) (ms : list Message) :
  non_qualifying body ->
  scan_body t body ms = (Ok false, ms).
Proof.
  intros F. rewrite <- (app_nil_r body), scan_body_skip_all by exact F.
  reflexivity.
Qed.

Lemma scan_body_hit_test (attr : node) (rest : list node) (ms : list Message) :
  qualifies attr = true ->
  scan_body true (attr :: rest) ms = (Ok true, ms ++ [msg_test_no_name attr]).
Proof.
  intros Q. simpl. unfold bind, lift.
  rewrite attr_condition_qualifies, Q. reflexivity.
Qed.

Lemma scan_body_hit (attr : node) (l0 l1 : nat) (v : pyconst)
      (rest : list node) (ms : list Message) :
  get_children attr = [AssignName "name" l0; Const v l1] ->
  scan_body false (attr :: rest) ms =
  (match hit_result false v with Ok _ => Ok true | Raise e => Raise e end,
   ms ++ hit_messages false attr v).
Proof.
  intros E.
  assert (Q : qualifies attr = true) by (apply qualifies_shape; eauto).
  simpl. unfold bind, lift, hit_result, hit_messages.
  rewrite attr_condition_qualifies, Q, E. simpl.
  destruct (Const_as_string v) as [value|e]; simpl.
  - unfold lowercase_text.
    destruct (String.eqb (Py.lower value) value); simpl.
    + rewrite app_nil_r. reflexivity.
    + reflexivity.
  - rewrite app_nil_r. reflexivity.
Qed.

End ScanFacts.

(** ** The whole visit *)

Section VisitFacts.

Lemma list_string_eqb_eq (a b : list string) :
  list_string_eqb a b = true <-> a = b.
Proof.
  revert b. induction a as [|x a IH]; intros [|y b]; simpl;
    try (split; [discriminate | discriminate]); [tauto|].
  rewrite andb_true_iff, String.eqb_eq, IH.
  split; [intros [-> ->]; reflexivity | intros H; inversion H; auto].
Qed.

Lemma first_qualifying_skip (attr : node) (rest : list node) :
  qualifies attr = false ->
  first_qualifying (attr :: rest) = first_qualifying rest.
Proof.
  unfold qualifies. simpl.
  destruct (get_children attr) as [|c0 [|c1 [|c2 l]]]; try reflexivity;
    destruct c0 as [n l0| |]; try reflexivity;
    destruct c1; try reflexivity.
  intros ->. reflexivity.
Qed.

Lemma first_qualifying_hit (attr : node) (rest : list node) l0 v l1 :
  get_children attr = [AssignName "name" l0; Const v l1] ->
  first_qualifying (attr :: rest) = Some (attr, v).
Proof. intros E. simpl. rewrite E. reflexivity. Qed.

Lemma first_qualifying_skip_all (pre rest : list node) :
  non_qualifying pre ->
  first_qualifying (pre ++ rest) = first_qualifying rest.
Proof.
  induction 1 as [|a pre Q _ IH]; [reflexivity|].
  rewrite <- app_comm_cons, first_qualifying_skip by exact Q. exact IH.
Qed.

Lemma scan_body_first (t : bool) (body : list node) (ms : list Message) :
  scan_body t body ms =
  match first_qualifying body with
  | Some (attr, v) =>
      (match hit_result t v with Ok _ => Ok true | Raise e => Raise e end,
       ms ++ hit_messages t attr v)
  | None => (Ok false, ms)
  end.
Proof.
  induction body as [|attr rest IH]; [reflexivity|].
  destruct (qualifies attr) eqn:Q.
  - destruct (proj1 (qualifies_shape attr) Q) as (l0 & v & l1 & E).
    rewrite (first_qualifying_hit _ _ _ _ _ E).
    destruct t.
    + apply scan_body_hit_test; exact Q.
    + apply (scan_body_hit _ _ _ _ _ _ E).
  - rewrite scan_body_skip, first_qualifying_skip by exact Q. exact IH.
Qed.

Lemma visit_classdef_run (cls : ClassDef) (t : bool) (ms : list Message) :
  is_test (file cls) = Ok t ->
  visit_classdef cls ms = (expected_result cls t, ms ++ expected cls t).
Proof.
  intros T. unfold visit_classdef, expected, expected_result, bind, lift.
  rewrite T.
  destruct (list_string_eqb (basenames cls) ["ConanFile"]).
  - rewrite scan_body_first.
    destruct (first_qualifying (body cls)) as [[attr v]|].
    + destruct (hit_result t v) as [[]|e]; reflexivity.
    + destruct t; simpl; [rewrite app_nil_r|]; reflexivity.
  - unfold ret. rewrite app_nil_r. reflexivity.
Qed.

Lemma reports_expected (cls : ClassDef) (t : bool) :
  is_test (file cls) = Ok t -> reports cls = expected cls t.
Proof.
  intros T. unfold reports. rewrite (visit_classdef_run _ _ _ T). reflexivity.
Qed.

Lemma outcome_expected (cls : ClassDef) (t : bool) :
  is_test (file cls) = Ok t -> outcome_of cls = expected_result cls t.
Proof.
  intros T. unfold outcome_of. rewrite (visit_classdef_run _ _ _ T). reflexivity.
Qed.

Lemma visit_classdef_reports (cls : ClassDef) (ms : list Message) :
  visit_classdef cls ms = (outcome_of cls, ms ++ reports cls).
Proof.
  destruct (is_test_total (file cls)) as [t T].
  rewrite (reports_expected _ _ T), (outcome_expected _ _ T).
  apply visit_classdef_run; exact T.
Qed.

Lemma hit_messages_length (t : bool) (attr : node) (v : pyconst) :
  List.length (hit_messages t attr v) <= 1.
Proof.
  unfold hit_messages. destruct t; [simpl; lia|].
  destruct (Const_as_string v) as [value|e]; [|simpl; lia].
  destruct (lowercase_text value); simpl; lia.
Qed.

(** a constant is rendered unless it is an integer of too many digits *)
Lemma Const_as_string_raises (v : pyconst) (e : exn) :
  Const_as_string v = Raise e ->
  e = ValueError Py.int_str_limit_message /\ oversized v.
Proof.
  destruct v as [s|s|n|[]| | |text]; simpl; try discriminate.
  unfold Py.repr_int.
  destruct (Nat.ltb Py.max_str_digits
                    (String.length (NilZero.string_of_uint (N.to_uint n)))) eqn:L;
    [|discriminate].
  intros H. injection H as <-. split; [reflexivity|].
  exists n. split; [reflexivity|]. apply Nat.ltb_lt. exact L.
Qed.

Lemma oversized_raises (v : pyconst) :
  oversized v -> Const_as_string v = Raise (ValueError Py.int_str_limit_message).
Proof.
  intros (n & -> & L). simpl. unfold Py.repr_int.
  apply Nat.ltb_lt in L. rewrite L. reflexivity.
Qed.

End VisitFacts.

(** ** Patterns and paths *)

Section MatchFacts.

Lemma fnmatchcase_literal (pat : string) :
  literal pat = true -> forall n, Py.fnmatchcase n pat = String.eqb n pat.
Proof.
  induction pat as [|c pat IH]; simpl; intros L n.
  - destruct n; reflexivity.
  - apply andb_true_iff in L. destruct L as [L Lp].
    apply andb_true_iff in L. destruct L as [Ls Lq].
    apply negb_true_iff in Ls. apply negb_true_iff in Lq.
    rewrite Ls. destruct n as [|d n]; [reflexivity|].
    rewrite Lq, (IH Lp). simpl. rewrite (Ascii.eqb_sym c d). reflexivity.
Qed.

Lemma fnmatchcase_star_suffix (suf : string) :
  literal suf = true ->
  forall n, Py.fnmatchcase n (String "*" suf) = true <->
            exists stem, n = (stem ++ suf)%string.
Proof.
  intros L n. simpl.
  induction n as [|c n IH].
  - rewrite (fnmatchcase_literal _ L), orb_false_r, String.eqb_eq. split.
    + intros E. exists EmptyString. exact E.
    + intros [[|d stem] E]; [exact E | discriminate E].
  - rewrite orb_true_iff, (fnmatchcase_literal _ L), String.eqb_eq. split.
    + intros [E | H].
      * exists EmptyString. exact E.
      * apply IH in H. destruct H as [stem ->]. exists (String c stem). reflexivity.
    + intros [[|d stem] E].
      * left. exact E.
      * right. simpl in E. inversion E; subst. apply IH. eauto.
Qed.

Lemma last_two (parts : list string) (n d : string) :
  negb (Nat.ltb (List.length parts) 2) && Py.zip_match (rev parts) [n; d] = true <->
  exists pre a b, parts = pre ++ [a; b] /\
                  Py.fnmatchcase a d = true /\ Py.fnmatchcase b n = true.
Proof.
  split.
  - intros H. apply andb_true_iff in H. destruct H as [Hl Hz].
    apply negb_true_iff, Nat.ltb_ge in Hl.
    rewrite <- length_rev in Hl.
    destruct (rev parts) as [|b [|a r]] eqn:R; simpl in Hl; try lia.
    simpl in Hz. apply andb_true_iff in Hz. destruct Hz as [Hb Ha].
    apply andb_true_iff in Ha. destruct Ha as [Ha _].
    exists (rev r), a, b. split; [|auto].
    rewrite <- (rev_involutive parts), R. simpl. rewrite <- app_assoc. reflexivity.
  - intros (pre & a & b & -> & Ha & Hb).
    rewrite length_app, rev_app_distr. simpl. rewrite Ha, Hb.
    replace (Nat.ltb (List.length pre + 2) 2) with false.
    + destruct (rev pre); reflexivity.
    + symmetry. apply Nat.ltb_ge. lia.
Qed.

Lemma is_test_unfold (f : string) :
  is_test f =
  Ok ((negb (Nat.ltb (List.length (Py.parts (Py.Path f))) 2)
       && Py.zip_match (rev (Py.parts (Py.Path f))) ["*.py"; "test_package"])
      || (negb (Nat.ltb (List.length (Py.parts (Py.Path f))) 2)
          && Py.zip_match (rev (Py.parts (Py.Path f))) ["*.py"; "test_v1_package"])).
Proof.
  unfold is_test.
  rewrite (Path_match_relative2 _ _ _ _ pattern_test_package).
  rewrite (Path_match_relative2 _ _ _ _ pattern_test_v1_package).
  simpl.
  match goal with |- context [if ?c then _ else _] => destruct c end; reflexivity.
Qed.

End MatchFacts.

(** ** Properties of [visit_classdef] *)

Section Claims.

Lemma first_qualifying_In (body : list node) (attr : node) (v : pyconst) :
  first_qualifying body = Some (attr, v) ->
  In attr body /\ qualifies attr = true /\
  exists l0 l1, get_children attr = [AssignName "name" l0; Const v l1].
Proof.
  induction body as [|a rest IH]; [discriminate|].
  destruct (qualifies a) eqn:Q.
  - destruct (proj1 (qualifies_shape a) Q) as (l0 & w & l1 & E).
    rewrite (first_qualifying_hit _ _ _ _ _ E). intros H; inversion H; subst.
    split; [left; reflexivity|]. split; [exact Q|eauto].
  - rewrite first_qualifying_skip by exact Q. intros H.
    destruct (IH H) as (HI & HQ & HE). split; [right; exact HI|]. auto.
Qed.

Lemma first_qualifying_none (body : list node) :
  non_qualifying body -> first_qualifying body = None.
Proof.
  intros F. rewrite <- (app_nil_r body). apply first_qualifying_skip_all; exact F.
Qed.

Lemma first_qualifying_found (pre post : list node) (attr : node) l0 v l1 :
  non_qualifying pre ->
  get_children attr = [AssignName "name" l0; Const v l1] ->
  first_qualifying (pre ++ attr :: post) = Some (attr, v).
Proof.
  intros F E. rewrite first_qualifying_skip_all by exact F.
  apply (first_qualifying_hit _ _ _ _ _ E).
Qed.


Lemma lowercase_text_true (value : string) :
  lowercase_text value = true <-> Py.lower value = value.
Proof. apply String.eqb_eq. Qed.

Lemma lowercase_text_false (value : string) :
  lowercase_text value = false <-> Py.lower value <> value.
Proof. apply String.eqb_neq. Qed.

Lemma exact_base (cls : ClassDef) :
  basenames cls = ["ConanFile"] ->
  list_string_eqb (basenames cls) ["ConanFile"] = true.
Proof. intros ->. reflexivity. Qed.

(** the messages and the result once the first qualifying statement is
    known, outside a test package *)
Lemma found_outside_test (cls : ClassDef) (attr : node) (v : pyconst) :
  basenames cls = ["ConanFile"] ->
  is_test (file cls) = Ok false ->
  first_qualifying (body cls) = Some (attr, v) ->
  reports cls = hit_messages false attr v /\
  outcome_of cls = hit_result false v.
Proof.
  intros B T F.
  rewrite (reports_expected _ _ T), (outcome_expected _ _ T).
  unfold expected, expected_result. rewrite (exact_base _ B), F. auto.
Qed.

(** C1, as the code has it: a class whose base list is exactly
    [ConanFile] falls into exactly one of the four outcomes (correctly
    named, badly cased, missing attribute, test-package exempt), the visit
    returning [None] and adding at most one message, unless the file is
    outside a test package and the first qualifying statement gives [name]
    an integer of more than 4300 digits: then the visit raises the
    [ValueError] of the rendering and adds no message. *)
Theorem visit_classdef_classifies (cls : ClassDef) (ms : list Message) :
  basenames cls = ["ConanFile"] ->
  (~ oversized_name cls ->
   visit_classdef cls ms = (Ok tt, ms ++ reports cls) /\
   List.length (reports cls) <= 1 /\
   exists o, outcome_holds cls (reports cls) o /\
             forall o', outcome_holds cls (reports cls) o' -> o' = o) /\
  (oversized_name cls ->
   visit_classdef cls ms = (Raise (ValueError Py.int_str_limit_message), ms) /\
   reports cls = []).
Proof.
  intros B.
  destruct (is_test_total (file cls)) as [t T].
  rewrite (visit_classdef_run _ _ _ T), (reports_expected _ _ T).
  unfold expected, expected_result. rewrite (exact_base _ B).
  split.
  - intros N.
    destruct (first_qualifying (body cls)) as [[attr v]|] eqn:F.
    + unfold hit_messages, hit_result. destruct t.
      * split; [reflexivity|]. split; [simpl; lia|].
        exists TestPackageExempt. split.
        -- simpl. rewrite F. auto.
        -- intros [] H; simpl in H; try reflexivity;
             destruct H as [H _]; congruence.
      * destruct (Const_as_string v) as [value|e] eqn:R.
        -- split; [reflexivity|].
           destruct (lowercase_text value) eqn:L.
           ++ split; [simpl; lia|]. exists CorrectlyNamed. split.
              ** simpl. rewrite F. split; [exact T|].
                 split; [|reflexivity]. exists attr, v, value. auto.
              ** intros [] H; simpl in H; try reflexivity.
                 --- destruct H as (_ & a & w & x & _ & _ & _ & H). discriminate H.
                 --- destruct H as (_ & H & _). congruence.
                 --- destruct H as [H _]. congruence.
           ++ split; [simpl; lia|]. exists BadlyCased. split.
              ** simpl. rewrite F. split; [exact T|].
                 exists attr, v, value. auto.
              ** intros [] H; simpl in H; try reflexivity.
                 --- destruct H as (_ & _ & H). discriminate H.
                 --- destruct H as (_ & H & _). congruence.
                 --- destruct H as [H _]. congruence.
        -- exfalso. apply N. split; [exact T|].
           exists attr, v. split; [exact F|].
           apply (Const_as_string_raises _ _ R).
    + destruct t.
      * split; [rewrite app_nil_r; reflexivity|]. split; [simpl; lia|].
        exists TestPackageExempt. split.
        -- simpl. rewrite F. auto.
        -- intros [] H; simpl in H; try reflexivity;
             destruct H as [H _]; congruence.
      * split; [reflexivity|]. split; [simpl; lia|].
        exists MissingAttribute. split.
        -- simpl. auto.
        -- intros [] H; simpl in H; try reflexivity.
           ++ destruct H as (_ & (a & w & x & H & _) & _). congruence.
           ++ destruct H as (_ & a & w & x & H & _). congruence.
           ++ destruct H as [H _]. congruence.
  - intros (T' & attr & v & F & O).
    assert (t = false) by congruence. subst t.
    rewrite F. unfold hit_messages, hit_result.
    rewrite (oversized_raises _ O), app_nil_r. auto.
Qed.

(** C1, as the specification words it, fails: outside a test package,
    with [name = 0x1000...] of 4335 decimal digits, the visit raises, so it
    does not return [None], and none of the four outcomes holds. *)
Lemma classification_fails_on_huge_int :
  basenames (Samples.FooConan [Samples.huge_assign 2]) = ["ConanFile"] /\
  visit_classdef (Samples.FooConan [Samples.huge_assign 2]) [] =
    (Raise (ValueError Py.int_str_limit_message), []) /\
  forall o,
    ~ outcome_holds (Samples.FooConan [Samples.huge_assign 2])
                    (reports (Samples.FooConan [Samples.huge_assign 2])) o.
Proof.
  assert (R : Const_as_string (PyInt Samples.huge_int) =
              Raise (ValueError Py.int_str_limit_message))
    by (vm_compute; reflexivity).
  assert (F : first_qualifying (body (Samples.FooConan [Samples.huge_assign 2])) =
              Some (Samples.huge_assign 2, PyInt Samples.huge_int))
    by reflexivity.
  assert (T : is_test (file (Samples.FooConan [Samples.huge_assign 2])) = Ok false)
    by (vm_compute; reflexivity).
  split; [reflexivity|]. split; [vm_compute; reflexivity|].
  intros o H. destruct o; unfold outcome_holds in H.
  - destruct H as (_ & (a & w & x & Fa & Ra & _) & _).
    rewrite F in Fa. injection Fa as _ <-. rewrite R in Ra. discriminate Ra.
  - destruct H as (_ & a & w & x & Fa & Ra & _).
    rewrite F in Fa. injection Fa as _ <-. rewrite R in Ra. discriminate Ra.
  - destruct H as (_ & Fa & _). rewrite F in Fa. discriminate Fa.
  - destruct H as [Ta _]. rewrite T in Ta. discriminate Ta.
Qed.

(** C2: outside a test package, with the first qualifying assignment
    [name = v] found, the visit reports [conan-bad-name] at that statement
    and its line exactly when [v] has a rendering that lowering changes,
    and reports nothing otherwise; [v] is any constant, string or not.  The
    visit returns [None] when [v] is rendered and raises with [as_string]
    when it is not. *)
Theorem bad_name_iff_not_lowercase
        (cls : ClassDef) (ms : list Message) (pre post : list node)
        (attr : node) (l0 l1 : nat) (v : pyconst) :
  basenames cls = ["ConanFile"] ->
  is_test (file cls) = Ok false ->
  body cls = pre ++ attr :: post ->
  non_qualifying pre ->
  get_children attr = [AssignName "name" l0; Const v l1] ->
  (reports cls = [msg_bad_name attr] <->
   exists value, Const_as_string v = Ok value /\ Py.lower value <> value) /\
  (reports cls = [] <->
   forall value, Const_as_string v = Ok value -> Py.lower value = value) /\
  (forall value, Const_as_string v = Ok value ->
                 visit_classdef cls ms = (Ok tt, ms ++ reports cls)) /\
  (forall e, Const_as_string v = Raise e ->
             visit_classdef cls ms = (Raise e, ms)) /\
  at_node (msg_bad_name attr) = OnStatement attr /\
  message_line (msg_bad_name attr) = lineno attr.
Proof.
  intros B T E F C.
  assert (FQ : first_qualifying (body cls) = Some (attr, v))
    by (rewrite E; apply (first_qualifying_found _ _ _ _ _ _ F C)).
  destruct (found_outside_test _ _ _ B T FQ) as [HR HO].
  rewrite visit_classdef_reports, HO, HR.
  unfold hit_messages, hit_result.
  destruct (Const_as_string v) as [value|e].
  - destruct (lowercase_text value) eqn:L.
    + apply lowercase_text_true in L.
      split; [split; [discriminate|]|].
      { intros (x & Hx & N). injection Hx as <-. contradiction. }
      split; [split; [|reflexivity]|].
      { intros _ x Hx. injection Hx as <-. exact L. }
      split; [reflexivity|]. split; [discriminate|]. split; reflexivity.
    + apply lowercase_text_false in L.
      split; [split; [|reflexivity]|].
      { intros _. exists value. auto. }
      split; [split; [discriminate|]|].
      { intros A. contradiction (L (A value eq_refl)). }
      split; [reflexivity|]. split; [discriminate|]. split; reflexivity.
  - split; [split; [discriminate|]|].
    { intros (x & Hx & _). discriminate Hx. }
    split; [split; [|reflexivity]|].
    { intros _ x Hx. discriminate Hx. }
    split; [discriminate|]. split.
    { intros e' He. injection He as <-. rewrite app_nil_r. reflexivity. }
    split; reflexivity.
Qed.

(** C3: outside a test package, a body without qualifying assignment
    gets exactly one [conan-missing-name], attached to the class node and
    to the class node's line. *)
Theorem missing_name_reported (cls : ClassDef) (ms : list Message) :
  basenames cls = ["ConanFile"] ->
  is_test (file cls) = Ok false ->
  non_qualifying (body cls) ->
  visit_classdef cls ms = (Ok tt, ms ++ [msg_missing_name cls]) /\
  at_node (msg_missing_name cls) = OnClass cls /\
  message_line (msg_missing_name cls) = class_lineno cls.
Proof.
  intros B T F. split; [|split; reflexivity].
  rewrite (visit_classdef_run _ _ _ T). unfold expected, expected_result.
  rewrite (exact_base _ B), (first_qualifying_none _ F). reflexivity.
Qed.

(** C4: in a test package, the first qualifying assignment gets exactly
    one [conan-test-no-name], whatever its value and whatever follows it;
    a body without qualifying assignment gets nothing. *)
Theorem test_package_name_reported (cls : ClassDef) (ms : list Message) :
  basenames cls = ["ConanFile"] ->
  is_test (file cls) = Ok true ->
  (forall pre attr post,
      body cls = pre ++ attr :: post ->
      non_qualifying pre ->
      qualifies attr = true ->
      visit_classdef cls ms = (Ok tt, ms ++ [msg_test_no_name attr])) /\
  (non_qualifying (body cls) -> visit_classdef cls ms = (Ok tt, ms)).
Proof.
  intros B T. rewrite (visit_classdef_run _ _ _ T).
  unfold expected, expected_result.
  rewrite (exact_base _ B). split.
  - intros pre attr post E F Q.
    destruct (proj1 (qualifies_shape attr) Q) as (l0 & v & l1 & C).
    rewrite E, (first_qualifying_found _ _ _ _ _ _ F C). reflexivity.
  - intros F. rewrite (first_qualifying_none _ F), app_nil_r. reflexivity.
Qed.

(** C5: a class whose base list is not exactly [ConanFile] gets no
    message, whatever its body and its file. *)
Theorem other_bases_skipped (cls : ClassDef) (ms : list Message) :
  basenames cls <> ["ConanFile"] ->
  visit_classdef cls ms = (Ok tt, ms) /\ reports cls = [].
Proof.
  intros B.
  assert (N : list_string_eqb (basenames cls) ["ConanFile"] = false).
  { destruct (list_string_eqb (basenames cls) ["ConanFile"]) eqn:E; [|reflexivity].
    apply list_string_eqb_eq in E. contradiction. }
  destruct (is_test_total (file cls)) as [t T].
  rewrite (reports_expected _ _ T), (visit_classdef_run _ _ _ T).
  unfold expected, expected_result. rewrite N, app_nil_r. split; reflexivity.
Qed.

(** C6, as the code has it: [is_test] holds exactly when the last
    component of the path ends in [.py] and the component before it is
    [test_package] or [test_v1_package]; only the text of the path is read. *)
Theorem is_test_iff (f : string) :
  is_test f = Ok true <->
  exists pre dir stem,
    Py.parts (Py.Path f) = pre ++ [dir; (stem ++ ".py")%string] /\
    (dir = "test_package" \/ dir = "test_v1_package").
Proof.
  rewrite is_test_unfold. split.
  - intros H. injection H as H'.
    apply orb_true_iff in H'. destruct H' as [H | H];
      apply last_two in H; destruct H as (pre & a & b & E & Ha & Hb);
      rewrite fnmatchcase_literal in Ha by reflexivity;
      apply String.eqb_eq in Ha;
      apply (fnmatchcase_star_suffix ".py" eq_refl) in Hb;
      destruct Hb as [stem ->]; exists pre, a, stem; (split; [exact E|]);
      [left | right]; exact Ha.
  - intros (pre & dir & stem & E & D). f_equal. apply orb_true_iff.
    assert (Hb : Py.fnmatchcase (stem ++ ".py") "*.py" = true)
      by (apply (fnmatchcase_star_suffix ".py" eq_refl); eauto).
    destruct D as [-> | ->]; [left | right]; apply last_two;
      exists pre; eexists; eexists; (split; [exact E|]); split;
      [reflexivity | exact Hb | reflexivity | exact Hb].
Qed.

(** C6, as the specification words it, fails: a file of the directory
    [test_package] whose name does not end in [.py] matches the pattern
    [test_package/*] and is not a test file for the checker. *)
Lemma is_test_any_file_name_refuted :
  Py.Path_match (Py.Path "recipes/foo/all/test_package/conanfile.pyi")
                "test_package/*" = Ok true /\
  is_test "recipes/foo/all/test_package/conanfile.pyi" = Ok false /\
  ~ (forall f, is_test f = Ok true <->
               (Py.Path_match (Py.Path f) "test_package/*" = Ok true \/
                Py.Path_match (Py.Path f) "test_v1_package/*" = Ok true)).
Proof.
  assert (M : Py.Path_match (Py.Path "recipes/foo/all/test_package/conanfile.pyi")
                            "test_package/*" = Ok true) by (vm_compute; reflexivity).
  assert (T : is_test "recipes/foo/all/test_package/conanfile.pyi" = Ok false)
    by (vm_compute; reflexivity).
  split; [exact M|]. split; [exact T|].
  intros H.
  destruct (H "recipes/foo/all/test_package/conanfile.pyi") as [_ H'].
  rewrite T in H'. specialize (H' (or_introl M)). discriminate H'.
Qed.

(** C7: the scan stops at the first qualifying statement and that
    statement alone decides: in a test package it is reported, outside one
    its constant is rendered and compared with its lowercase form.  What
    comes before it without qualifying is passed over, what comes after it
    is never looked at; a body without qualifying statement is scanned to
    its end; an assignment of [name] to anything that is not a constant
    does not qualify. *)
Theorem first_qualifying_assignment_decides
        (cls : ClassDef) (t : bool) (ms : list Message)
        (pre post : list node) (attr : node) (l0 l1 : nat) (v : pyconst) :
  non_qualifying pre ->
  get_children attr = [AssignName "name" l0; Const v l1] ->
  scan_body t (pre ++ attr :: post) ms =
    (if t then (Ok true, ms ++ [msg_test_no_name attr])
     else match Const_as_string v with
          | Ok value =>
              (Ok true,
               ms ++ if String.eqb (Py.lower value) value
                     then [] else [msg_bad_name attr])
          | Raise e => (Raise e, ms)
          end) /\
  scan_body t (pre ++ attr :: post) ms = scan_body t [attr] ms /\
  visit_classdef (set_body cls (pre ++ attr :: post)) ms =
  visit_classdef (set_body cls [attr]) ms /\
  (forall body, non_qualifying body -> scan_body t body ms = (Ok false, ms)) /\
  (forall c nm l src tl ec en el echildren esrc,
      qualifies (NodeNG c nm l [AssignName "name" tl;
                                NodeNG ec en el echildren esrc] src) = false).
Proof.
  intros F C.
  assert (S1 : forall b, scan_body b (pre ++ attr :: post) ms = scan_body b [attr] ms).
  { intros b. rewrite !scan_body_first, (first_qualifying_found _ _ _ _ _ _ F C).
    rewrite (first_qualifying_hit _ _ _ _ _ C). reflexivity. }
  split.
  { rewrite scan_body_first, (first_qualifying_found _ _ _ _ _ _ F C).
    unfold hit_result, hit_messages, lowercase_text.
    destruct t; [reflexivity|].
    destruct (Const_as_string v); [reflexivity|].
    rewrite app_nil_r. reflexivity. }
  split; [apply S1|]. split.
  { destruct (is_test_total (file cls)) as [b T].
    rewrite !(visit_classdef_run _ b) by exact T.
    unfold expected, expected_result, set_body. cbn [body basenames].
    rewrite (first_qualifying_found _ _ _ _ _ _ F C), (first_qualifying_hit _ _ _ _ _ C).
    reflexivity. }
  split; [intros b; apply scan_body_none | reflexivity].
Qed.



(** C9: a [conan-test-no-name] message is attached to the qualifying
    statement of the body that caused it and carries that statement's line,
    not the class's. *)
Theorem test_no_name_location (cls : ClassDef) (m : Message) :
  In m (reports cls) ->
  symbol m = "conan-test-no-name" ->
  exists attr,
    In attr (body cls) /\ qualifies attr = true /\
    m = msg_test_no_name attr /\
    at_node m = OnStatement attr /\
    line m = Some (lineno attr) /\
    message_line m = lineno attr.
Proof.
  destruct (is_test_total (file cls)) as [t T].
  rewrite (reports_expected _ _ T). unfold expected.
  destruct (list_string_eqb (basenames cls) ["ConanFile"]); [|intros []].
  destruct (first_qualifying (body cls)) as [[attr v]|] eqn:F.
  - destruct (first_qualifying_In _ _ _ F) as (HI & HQ & _).
    unfold hit_messages. destruct t.
    + intros [<- | []] _. exists attr. repeat split; assumption.
    + destruct (Const_as_string v) as [value|e]; [|intros []].
      destruct (lowercase_text value); [intros []|].
      intros [<- | []] S. discriminate S.
  - destruct t; [intros []|]. intros [<- | []] S. discriminate S.
Qed.

End Claims.

(** ** The [build] and [package] steps of [TkConan] *)

Section TkFacts.

Variable base : TkConan.Base.
Variable w : TkConan.World.
Variable c : TkConan.Conf.

Lemma patch_sources_raises (tr : list TkConan.call) :
  base "_get_configure_folder" = None ->
  exists e,
    TkConan._patch_sources base w c tr =
      (Raise e, tr ++ [TkConan.apply_conandata_patches]) /\
    (TkConan.succeeds w TkConan.apply_conandata_patches = true ->
     e = AttributeError "_get_configure_folder").
Proof.
  intros H.
  unfold TkConan._patch_sources, bind, TkConan.invoke.
  destruct (TkConan.succeeds w TkConan.apply_conandata_patches).
  - exists (AttributeError "_get_configure_folder"). split; [|reflexivity].
    simpl. unfold bind, TkConan.getattr. rewrite H. reflexivity.
  - eexists. split; [reflexivity|discriminate].
Qed.

Lemma package_raises (tr : list TkConan.call) :
  base "_source_subfolder" = None ->
  exists attr,
    TkConan.package base w c tr = (Raise (AttributeError attr), tr) /\
    (base "copy" <> None -> attr = "_source_subfolder").
Proof.
  intros H. unfold TkConan.package, bind, TkConan.getattr.
  destruct (base "copy") as [copy|].
  - exists "_source_subfolder". rewrite H. split; reflexivity.
  - exists "copy". split; [reflexivity|]. intros N. contradiction N. reflexivity.
Qed.

End TkFacts.

(** C10: whatever the configuration and the outside, [build] raises
    before any build tool is started: [_patch_sources] looks up
    [_get_configure_folder], which the class does not bind (it binds
    [_get_configure_dir]), right after the patches are applied; and
    [package] raises an attribute error before it makes any call, as
    [_source_subfolder] is not bound either. *)
Theorem tk_build_and_package_always_fail
        (base : TkConan.Base) (w : TkConan.World) (c : TkConan.Conf)
        (tr : list TkConan.call) :
  base "_get_configure_folder" = None ->
  base "_source_subfolder" = None ->
  (exists e,
      TkConan.build base w c tr =
        (Raise e, tr ++ [TkConan.apply_conandata_patches]) /\
      (TkConan.succeeds w TkConan.apply_conandata_patches = true ->
       e = AttributeError "_get_configure_folder")) /\
  TkConan.is_build_tool TkConan.apply_conandata_patches = false /\
  (exists attr,
      TkConan.package base w c tr = (Raise (AttributeError attr), tr) /\
      (base "copy" <> None -> attr = "_source_subfolder")) /\
  ~ In "_get_configure_folder" TkConan.class_attributes /\
  In "_get_configure_dir" TkConan.class_attributes /\
  ~ In "_source_subfolder" TkConan.class_attributes.
Proof.
  intros Hf Hs. split.
  { destruct (patch_sources_raises base w c tr Hf) as (e & E & He).
    exists e. split; [|exact He].
    unfold TkConan.build, bind. rewrite E. reflexivity. }
  split; [reflexivity|].
  split; [apply package_raises; exact Hs|].
  split; [|split].
  - simpl. intros H.
    repeat (destruct H as [H|H]; [discriminate H|]). exact H.
  - simpl. tauto.
  - simpl. intros H.
    repeat (destruct H as [H|H]; [discriminate H|]). exact H.
Qed.

(** ** The properties at sample inputs *)

Section Witnesses.

Import Samples.

(** the six scenarios of the specification *)
Example scenario_lowercase_name :
  reports (FooConan [assign 2 "name" (PyStr "foo")]) = [].
Proof. reflexivity. Qed.

Example scenario_mixed_case_name :
  reports (FooConan [assign 2 "name" (PyStr "FooBar")]) =
  [msg_bad_name (assign 2 "name" (PyStr "FooBar"))].
Proof. reflexivity. Qed.

Example scenario_no_name :
  reports (FooConan []) = [msg_missing_name (FooConan [])].
Proof. reflexivity. Qed.

Example scenario_test_package_name :
  reports (TestConan [assign 2 "name" (PyStr "foo")]) =
  [msg_test_no_name (assign 2 "name" (PyStr "foo"))].
Proof. reflexivity. Qed.

Example scenario_test_package_no_name :
  reports (TestConan []) = [].
Proof. reflexivity. Qed.

Example scenario_two_bases :
  reports (TwoBases [assign 2 "name" (PyStr "FooBar")]) = [].
Proof. reflexivity. Qed.

(** constants that are not strings are compared as text *)
Example name_True_is_badly_cased :
  reports (FooConan [assign 2 "name" (PyBool true)]) =
  [msg_bad_name (assign 2 "name" (PyBool true))].
Proof. reflexivity. Qed.

Example name_number_is_lowercase :
  reports (FooConan [assign 2 "name" (PyInt 42)]) = [].
Proof. reflexivity. Qed.

(** an annotated or a computed [name] does not count as declared *)
Example annotated_name_is_missing :
  reports (FooConan [ann_assign 2 "name" (PyStr "foo")]) =
  [msg_missing_name (FooConan [ann_assign 2 "name" (PyStr "foo")])].
Proof. reflexivity. Qed.

Lemma visit_classdef_classifies_witness :
  basenames (FooConan [assign 2 "name" (PyStr "FooBar")]) = ["ConanFile"] /\
  ~ oversized_name (FooConan [assign 2 "name" (PyStr "FooBar")]) /\
  visit_classdef (FooConan [assign 2 "name" (PyStr "FooBar")]) [] =
  (Ok tt, [] ++ reports (FooConan [assign 2 "name" (PyStr "FooBar")])) /\
  List.length (reports (FooConan [assign 2 "name" (PyStr "FooBar")])) <= 1.
Proof.
  assert (N : ~ oversized_name (FooConan [assign 2 "name" (PyStr "FooBar")])).
  { intros (_ & attr & v & F & n & E & _). simpl in F.
    injection F as _ <-. discriminate E. }
  split; [reflexivity|]. split; [exact N|].
  destruct (proj1 (visit_classdef_classifies
                     (FooConan [assign 2 "name" (PyStr "FooBar")]) [] eq_refl) N)
    as (V & L & _).
  split; [exact V | exact L].
Defined.

Lemma bad_name_iff_not_lowercase_witness :
  basenames (FooConan [assign_call 2 "name"; assign 3 "name" (PyStr "FooBar");
                       assign 4 "name" (PyStr "foo")]) = ["ConanFile"] /\
  is_test recipe_file = Ok false /\
  non_qualifying [assign_call 2 "name"] /\
  (reports (FooConan [assign_call 2 "name"; assign 3 "name" (PyStr "FooBar");
                      assign 4 "name" (PyStr "foo")])
   = [msg_bad_name (assign 3 "name" (PyStr "FooBar"))] <->
   exists value, Const_as_string (PyStr "FooBar") = Ok value /\
                 Py.lower value <> value).
Proof.
  split; [reflexivity|]. split; [reflexivity|].
  split; [repeat constructor|].
  apply (bad_name_iff_not_lowercase
           (FooConan [assign_call 2 "name"; assign 3 "name" (PyStr "FooBar");
                      assign 4 "name" (PyStr "foo")])
           [] [assign_call 2 "name"] [assign 4 "name" (PyStr "foo")]
           (assign 3 "name" (PyStr "FooBar")) 3 3 (PyStr "FooBar"));
    try reflexivity.
  repeat constructor.
Defined.

Lemma missing_name_reported_witness :
  basenames (FooConan [assign_call 2 "name"]) = ["ConanFile"] /\
  is_test recipe_file = Ok false /\
  non_qualifying [assign_call 2 "name"] /\
  visit_classdef (FooConan [assign_call 2 "name"]) [] =
  (Ok tt, [msg_missing_name (FooConan [assign_call 2 "name"])]).
Proof.
  split; [reflexivity|]. split; [reflexivity|].
  split; [repeat constructor|].
  apply (missing_name_reported (FooConan [assign_call 2 "name"]) []);
    try reflexivity.
  repeat constructor.
Defined.

Lemma test_package_name_reported_witness :
  basenames (TestConan [assign 2 "name" (PyStr "FooBar"); assign 3 "name" (PyStr "foo")])
  = ["ConanFile"] /\
  is_test test_file = Ok true /\
  visit_classdef
    (TestConan [assign 2 "name" (PyStr "FooBar"); assign 3 "name" (PyStr "foo")]) [] =
  (Ok tt, [msg_test_no_name (assign 2 "name" (PyStr "FooBar"))]).
Proof.
  split; [reflexivity|]. split; [reflexivity|].
  apply (proj1 (test_package_name_reported
                  (TestConan [assign 2 "name" (PyStr "FooBar");
                              assign 3 "name" (PyStr "foo")]) []
                  eq_refl eq_refl)
               [] (assign 2 "name" (PyStr "FooBar")) [assign 3 "name" (PyStr "foo")]).
  - reflexivity.
  - constructor.
  - reflexivity.
Defined.

Lemma other_bases_skipped_witness :
  basenames (TwoBases [assign 2 "name" (PyStr "FooBar")]) <> ["ConanFile"] /\
  visit_classdef (TwoBases [assign 2 "name" (PyStr "FooBar")]) [] = (Ok tt, []).
Proof.
  assert (N : basenames (TwoBases [assign 2 "name" (PyStr "FooBar")]) <> ["ConanFile"])
    by (intros H; discriminate H).
  split; [exact N|].
  apply (other_bases_skipped (TwoBases [assign 2 "name" (PyStr "FooBar")]) [] N).
Defined.

Lemma is_test_iff_witness :
  is_test test_v1_file = Ok true.
Proof.
  apply (proj2 (is_test_iff test_v1_file)).
  exists ["recipes"; "foo"; "all"], "test_v1_package", "conanfile".
  split; [reflexivity|]. right. reflexivity.
Defined.

Lemma first_qualifying_assignment_decides_witness :
  non_qualifying [assign_call 2 "name"] /\
  scan_body false
            ([assign_call 2 "name"] ++
             assign 3 "name" (PyStr "Foo") :: [assign 4 "name" (PyStr "bar")]) [] =
  (Ok true, [] ++ [msg_bad_name (assign 3 "name" (PyStr "Foo"))]).
Proof.
  assert (F : non_qualifying [assign_call 2 "name"]) by (repeat constructor).
  split; [exact F|].
  apply (proj1 (first_qualifying_assignment_decides
                  (FooConan []) false [] [assign_call 2 "name"]
                  [assign 4 "name" (PyStr "bar")] (assign 3 "name" (PyStr "Foo"))
                  3 3 (PyStr "Foo") F eq_refl)).
Defined.


Lemma test_no_name_location_witness :
  In (msg_test_no_name (assign 2 "name" (PyStr "foo")))
     (reports (TestConan [assign 2 "name" (PyStr "foo")])) /\
  exists attr,
    In attr (body (TestConan [assign 2 "name" (PyStr "foo")])) /\
    line (msg_test_no_name (assign 2 "name" (PyStr "foo"))) = Some (lineno attr).
Proof.
  assert (I : In (msg_test_no_name (assign 2 "name" (PyStr "foo")))
                 (reports (TestConan [assign 2 "name" (PyStr "foo")])))
    by (left; reflexivity).
  split; [exact I|].
  destruct (test_no_name_location
              (TestConan [assign 2 "name" (PyStr "foo")])
              (msg_test_no_name (assign 2 "name" (PyStr "foo"))) I eq_refl)
    as (attr & HI & _ & _ & _ & HL & _).
  exists attr. split; [exact HI | exact HL].
Defined.

Lemma tk_build_and_package_always_fail_witness :
  conan1_base "_get_configure_folder" = None /\
  conan1_base "_source_subfolder" = None /\
  exists e, TkConan.build conan1_base all_succeed linux_gcc [] =
            (Raise e, [] ++ [TkConan.apply_conandata_patches]).
Proof.
  split; [reflexivity|]. split; [reflexivity|].
  destruct (proj1 (tk_build_and_package_always_fail
                     conan1_base all_succeed linux_gcc [] eq_refl eq_refl))
    as (e & E & _).
  exists e. exact E.
Defined.

End Witnesses.

(** ** More on [visit_classdef]: what is compared, and what each message means *)

Section TextFacts.

Lemma lower_app (a b : string) :
  Py.lower (a ++ b) = (Py.lower a ++ Py.lower b)%string.
Proof. induction a as [|c a IH]; simpl; [reflexivity | rewrite IH; reflexivity]. Qed.

Lemma lower_length (s : string) : String.length (Py.lower s) = String.length s.
Proof. induction s as [|c s IH]; simpl; [reflexivity | rewrite IH; reflexivity]. Qed.

Lemma append_same_length (a a' b b' : string) :
  String.length a = String.length a' ->
  (a ++ b)%string = (a' ++ b')%string -> a = a' /\ b = b'.
Proof.
  revert a'. induction a as [|c a IH]; intros [|c' a'] L E; simpl in *;
    try discriminate L.
  - auto.
  - injection E as Ec Er. injection L as L.
    destruct (IH a' L Er) as [-> ->]. subst. auto.
Qed.

Lemma append_length (a b : string) :
  String.length (a ++ b) = String.length a + String.length b.
Proof. induction a as [|c a IH]; simpl; [reflexivity | rewrite IH; reflexivity]. Qed.

Lemma lower_append_fixed (a b : string) :
  Py.lower (a ++ b) = (a ++ b)%string <-> Py.lower a = a /\ Py.lower b = b.
Proof.
  rewrite lower_app. split.
  - apply append_same_length, lower_length.
  - intros [-> ->]. reflexivity.
Qed.

(** quoting and escaping one character brings no capital and hides none *)
Lemma repr_char_lower (q c : ascii) :
  q = Py.single_quote \/ q = Py.double_quote ->
  String.eqb (Py.lower (Py.repr_char true q c)) (Py.repr_char true q c) =
  Ascii.eqb (Py.lower_char c) c.
Proof.
  intros [-> | ->];
    destruct c as [[] [] [] [] [] [] [] []]; vm_compute; reflexivity.
Qed.

Lemma repr_body_lower (q : ascii) (s : string) :
  q = Py.single_quote \/ q = Py.double_quote ->
  Py.lower (Py.repr_body true q s) = Py.repr_body true q s <-> Py.lower s = s.
Proof.
  intros Q. induction s as [|c s IH]; [simpl; tauto|].
  cbn [Py.repr_body Py.lower]. rewrite lower_append_fixed, IH.
  rewrite <- String.eqb_eq, (repr_char_lower _ _ Q), Ascii.eqb_eq.
  split.
  - intros [-> ->]. reflexivity.
  - intros E. injection E as E1 E2. auto.
Qed.

Lemma quote_for_cases (s : string) :
  Py.quote_for s = Py.single_quote \/ Py.quote_for s = Py.double_quote.
Proof.
  unfold Py.quote_for.
  destruct (Py.contains Py.single_quote s && negb (Py.contains Py.double_quote s));
    auto.
Qed.

Lemma quoted_lower (q : ascii) (inner : string) :
  q = Py.single_quote \/ q = Py.double_quote ->
  Py.lower (String q (inner ++ String q EmptyString)) =
    String q (inner ++ String q EmptyString) <->
  Py.lower inner = inner.
Proof.
  intros Q.
  assert (Hq : Py.lower_char q = q) by (destruct Q as [-> | ->]; reflexivity).
  cbn [Py.lower]. rewrite Hq. split.
  - intros E. injection E as E. apply lower_append_fixed in E. tauto.
  - intros E. f_equal. apply lower_append_fixed. split; [exact E|].
    cbn [Py.lower]. rewrite Hq. reflexivity.
Qed.

Lemma repr_str_lower (s : string) :
  Py.lower (Py.repr_str s) = Py.repr_str s <-> Py.lower s = s.
Proof.
  unfold Py.repr_str.
  rewrite (quoted_lower _ _ (quote_for_cases s)).
  apply repr_body_lower, quote_for_cases.
Qed.

Lemma decimal_digits_lower (d : Decimal.uint) :
  Py.lower (NilEmpty.string_of_uint d) = NilEmpty.string_of_uint d.
Proof. induction d; simpl; try rewrite IHd; reflexivity. Qed.

Lemma repr_int_lower (n : N) (value : string) :
  Py.repr_int n = Ok value -> Py.lower value = value.
Proof.
  unfold Py.repr_int.
  destruct (Nat.ltb Py.max_str_digits
                    (String.length (NilZero.string_of_uint (N.to_uint n))));
    [discriminate|].
  intros H. injection H as <-. unfold NilZero.string_of_uint.
  destruct (N.to_uint n); try reflexivity; apply decimal_digits_lower.
Qed.

End TextFacts.

Section MessageFacts.

Lemma reports_found (cls : ClassDef) (pre post : list node) (attr : node)
      (l0 l1 : nat) (v : pyconst) :
  basenames cls = ["ConanFile"] ->
  is_test (file cls) = Ok false ->
  body cls = pre ++ attr :: post ->
  non_qualifying pre ->
  get_children attr = [AssignName "name" l0; Const v l1] ->
  reports cls = hit_messages false attr v.
Proof.
  intros B T E F C.
  rewrite (reports_expected _ _ T). unfold expected.
  rewrite (exact_base _ B), E, (first_qualifying_found _ _ _ _ _ _ F C).
  reflexivity.
Qed.

Lemma first_qualifying_none_inv (body : list node) :
  first_qualifying body = None -> non_qualifying body.
Proof.
  induction body as [|a rest IH]; intros H; [constructor|].
  destruct (qualifies a) eqn:Q.
  - destruct (proj1 (qualifies_shape a) Q) as (l0 & w & l1 & E).
    rewrite (first_qualifying_hit _ _ _ _ _ E) in H. discriminate H.
  - rewrite first_qualifying_skip in H by exact Q.
    constructor; [exact Q | apply IH; exact H].
Qed.

End MessageFacts.

(** ** More on [is_test]: the directories above the last two components *)

Section CheckoutFacts.

Lemma split_on_app (sep : ascii) (a b cur : string) :
  Py.split_on sep (a ++ String sep b) cur =
  Py.split_on sep a cur ++ Py.split_on sep b EmptyString.
Proof.
  revert cur. induction a as [|c a IH]; intros cur; simpl.
  - rewrite Ascii.eqb_refl. reflexivity.
  - destruct (Ascii.eqb c sep); rewrite IH; reflexivity.
Qed.

Lemma startswith_nil (s : string) : Py.startswith s EmptyString = true.
Proof. destruct s; reflexivity. Qed.

Lemma startswith_sep (c : ascii) (f : string) :
  Py.startswith (String c f) "/" = Ascii.eqb c "/".
Proof. simpl. rewrite startswith_nil. apply andb_true_r. Qed.

Lemma lstrip_sep_relative (f : string) :
  Py.startswith f "/" = false -> Py.lstrip_sep f = f.
Proof.
  destruct f as [|c f]; [reflexivity|]. rewrite startswith_sep. simpl.
  destruct (Ascii.eqb c "/"); [discriminate | reflexivity].
Qed.

Lemma lstrip_sep_prefix (d f : string) :
  Py.startswith f "/" = false ->
  Py.lstrip_sep (d ++ String "/" f) = f \/
  exists d', Py.lstrip_sep (d ++ String "/" f) = (d' ++ String "/" f)%string.
Proof.
  intros R. induction d as [|c d IH].
  - left. simpl. apply lstrip_sep_relative; exact R.
  - cbn [String.append Py.lstrip_sep].
    destruct (Ascii.eqb c "/"); [exact IH|].
    right. exists (String c d). reflexivity.
Qed.

Lemma splitroot_rest (s : string) :
  snd (Py.splitroot s) = s \/ snd (Py.splitroot s) = Py.lstrip_sep s.
Proof.
  unfold Py.splitroot. destruct s as [|c s]; [left; reflexivity|].
  destruct (Ascii.eqb c "/"); [|left; reflexivity].
  right.
  destruct (Nat.eqb (String.length (String c s) -
                     String.length (Py.lstrip_sep (String c s))) 2); reflexivity.
Qed.

Lemma Path_parts_rest (s : string) :
  exists X, Py.parts (Py.Path s) =
            X ++ filter Py.keep_component (Py.split (snd (Py.splitroot s)) "/").
Proof.
  unfold Py.Path. destruct (Py.splitroot s) as [r rel]. simpl.
  destruct (String.eqb r "").
  - exists []. reflexivity.
  - exists [r]. reflexivity.
Qed.

Lemma Path_parts_relative (f : string) :
  Py.startswith f "/" = false ->
  Py.parts (Py.Path f) = filter Py.keep_component (Py.split f "/").
Proof.
  intros R. unfold Py.Path, Py.splitroot.
  destruct f as [|c f]; [reflexivity|].
  rewrite startswith_sep in R. rewrite R. reflexivity.
Qed.

Lemma Path_parts_under (d f : string) :
  Py.startswith f "/" = false ->
  exists X, Py.parts (Py.Path (d ++ String "/" f)) = X ++ Py.parts (Py.Path f).
Proof.
  intros R. rewrite (Path_parts_relative _ R).
  destruct (Path_parts_rest (d ++ String "/" f)) as [X ->].
  assert (C : snd (Py.splitroot (d ++ String "/" f)) = f \/
              exists d', snd (Py.splitroot (d ++ String "/" f))
                         = (d' ++ String "/" f)%string).
  { destruct (splitroot_rest (d ++ String "/" f)) as [-> | ->].
    - right. exists d. reflexivity.
    - apply lstrip_sep_prefix; exact R. }
  destruct C as [-> | [d' ->]].
  - exists X. reflexivity.
  - unfold Py.split. rewrite split_on_app, filter_app.
    exists (X ++ filter Py.keep_component (Py.split_on "/" d' EmptyString)).
    rewrite app_assoc. reflexivity.
Qed.

Lemma last_two_under (X P : list string) (n d : string) :
  2 <= List.length P ->
  negb (Nat.ltb (List.length (X ++ P)) 2) && Py.zip_match (rev (X ++ P)) [n; d] =
  negb (Nat.ltb (List.length P) 2) && Py.zip_match (rev P) [n; d].
Proof.
  intros L.
  assert (L1 : Nat.ltb (List.length P) 2 = false) by (apply Nat.ltb_ge; exact L).
  assert (L2 : Nat.ltb (List.length (X ++ P)) 2 = false)
    by (apply Nat.ltb_ge; rewrite length_app; lia).
  rewrite L1, L2, rev_app_distr. rewrite <- length_rev in L.
  destruct (rev P) as [|b [|a r]]; simpl in L; try lia.
  simpl. destruct (r ++ rev X), r; reflexivity.
Qed.

End CheckoutFacts.

(** ** More on [TkConan]: helpers of the build and the steps around it *)

Section TkHelperFacts.

Lemma find_snoc {A : Type} (test : A -> bool) (l : list A) (a : A) :
  find test (l ++ [a]) =
  match find test l with
  | Some x => Some x
  | None => if test a then Some a else None
  end.
Proof.
  induction l as [|x l IH]; simpl; [reflexivity|].
  destruct (test x); [reflexivity | exact IH].
Qed.

Lemma find_tcl_libs_from (c : TkConan.Conf) (p : string) (libs : list string)
      (i0 s0 : option string) :
  fold_left
    (fun '(tclimplib, tclstublib) lib =>
       if negb (Py.endswith lib ".lib") then (tclimplib, tclstublib)
       else if Py.startswith lib ("tcl" ++ TkConan.version_infix c)
            then (Some (Py.path_join p [lib]), tclstublib)
       else if Py.startswith lib ("tclstub" ++ TkConan.version_infix c)
            then (tclimplib, Some (Py.path_join p [lib]))
       else (tclimplib, tclstublib))
    libs (i0, s0) =
  (match find_last (is_tcl_implib c) libs with
   | Some lib => Some (Py.path_join p [lib])
   | None => i0
   end,
   match find_last (is_tcl_stublib c) libs with
   | Some lib => Some (Py.path_join p [lib])
   | None => s0
   end).
Proof.
  revert i0 s0. induction libs as [|a libs IH]; intros i0 s0; [reflexivity|].
  unfold find_last in *. cbn [fold_left rev]. rewrite !find_snoc.
  unfold is_tcl_implib at 2, is_tcl_stublib at 2.
  destruct (Py.endswith a ".lib"); cbn [negb andb].
  - destruct (Py.startswith a ("tcl" ++ TkConan.version_infix c)); cbn [negb andb].
    + rewrite IH.
      destruct (find (is_tcl_implib c) (rev libs)),
               (find (is_tcl_stublib c) (rev libs)); reflexivity.
    + destruct (Py.startswith a ("tclstub" ++ TkConan.version_infix c));
        rewrite IH;
        destruct (find (is_tcl_implib c) (rev libs)),
                 (find (is_tcl_stublib c) (rev libs)); reflexivity.
  - rewrite IH.
    destruct (find (is_tcl_implib c) (rev libs)),
             (find (is_tcl_stublib c) (rev libs)); reflexivity.
Qed.

Lemma find_tcl_libs_last (c : TkConan.Conf) (p : string) (libs : list string) :
  TkConan.find_tcl_libs c p libs =
  (option_map (fun lib => Py.path_join p [lib]) (find_last (is_tcl_implib c) libs),
   option_map (fun lib => Py.path_join p [lib]) (find_last (is_tcl_stublib c) libs)).
Proof.
  unfold TkConan.find_tcl_libs. rewrite find_tcl_libs_from.
  destruct (find_last (is_tcl_implib c) libs),
           (find_last (is_tcl_stublib c) libs); reflexivity.
Qed.

Lemma contains_app (x : ascii) (a b : string) :
  Py.contains x (a ++ b) = Py.contains x a || Py.contains x b.
Proof.
  induction a as [|c a IH]; simpl; [reflexivity|].
  rewrite IH, orb_assoc. reflexivity.
Qed.

(** after [replace], the replaced character is gone *)
Lemma replace_removes (s : string) (old : ascii) (new : string) :
  Py.contains old new = false ->
  Py.contains old (Py.replace s old new) = false.
Proof.
  intros N. induction s as [|c s IH]; [reflexivity|].
  cbn [Py.replace]. rewrite contains_app, IH, orb_false_r.
  destruct (Ascii.eqb c old) eqn:E; [exact N|].
  simpl. rewrite Ascii.eqb_sym, E. reflexivity.
Qed.

(** a text without the character is left as it is *)
Lemma replace_absent (s : string) (old : ascii) (new : string) :
  Py.contains old s = false -> Py.replace s old new = s.
Proof.
  induction s as [|c s IH]; [reflexivity|]. simpl.
  rewrite Ascii.eqb_sym. destruct (Ascii.eqb c old); [discriminate|].
  simpl. intros H. rewrite (IH H). reflexivity.
Qed.

Lemma string_app_nil_r (s : string) : (s ++ EmptyString)%string = s.
Proof. induction s as [|c s IH]; simpl; [reflexivity | rewrite IH; reflexivity]. Qed.

Lemma string_app_assoc (a b c : string) :
  ((a ++ b) ++ c)%string = (a ++ (b ++ c))%string.
Proof. induction a as [|x a IH]; simpl; [reflexivity | rewrite IH; reflexivity]. Qed.

(** a text without separator is one piece *)
Lemma split_on_piece (sep : ascii) (a cur : string) :
  Py.contains sep a = false ->
  Py.split_on sep a cur = [(cur ++ a)%string].
Proof.
  revert cur. induction a as [|c a IH]; intros cur; simpl.
  - intros _. rewrite string_app_nil_r. reflexivity.
  - rewrite Ascii.eqb_sym. destruct (Ascii.eqb c sep); [discriminate|].
    simpl. intros H. rewrite (IH _ H), string_app_assoc. reflexivity.
Qed.

(** the pieces of [a.b], where [a] has no separator *)
Lemma split_on_first (sep : ascii) (a b : string) :
  Py.contains sep a = false ->
  Py.split (a ++ String sep b) sep = a :: Py.split b sep.
Proof.
  intros H. unfold Py.split.
  rewrite split_on_app, (split_on_piece _ _ _ H). reflexivity.
Qed.

End TkHelperFacts.

(** ** Further properties of the checker *)

Section CheckerProperties.

(** X1: for a string constant of code points below 256, the strings
    of this development, the report depends on the string alone:
    [conan-bad-name] is reported exactly when the string has a capital
    letter, that is when lowering the string itself changes it; the
    quotes and the [\x] escapes of its rendering never cause or hide a
    report. *)
Theorem str_name_reported_iff_capital
        (cls : ClassDef) (pre post : list node) (attr : node)
        (l0 l1 : nat) (s : string) :
  basenames cls = ["ConanFile"] ->
  is_test (file cls) = Ok false ->
  body cls = pre ++ attr :: post ->
  non_qualifying pre ->
  get_children attr = [AssignName "name" l0; Const (PyStr s) l1] ->
  (reports cls = [] <-> Py.lower s = s) /\
  (reports cls = [msg_bad_name attr] <-> Py.lower s <> s).
Proof.
  intros B T E F C.
  rewrite (reports_found _ _ _ _ _ _ _ B T E F C).
  unfold hit_messages. cbn [Const_as_string].
  destruct (lowercase_text (Py.repr_str s)) eqn:L.
  - apply lowercase_text_true in L. apply (proj1 (repr_str_lower s)) in L.
    split; split; intros H; try reflexivity; try discriminate H.
    + exact L.
    + contradiction (H L).
  - apply lowercase_text_false in L.
    assert (N : Py.lower s <> s)
      by (intros H; apply L; apply repr_str_lower; exact H).
    split; split; intros H; try reflexivity; try discriminate H.
    + contradiction (N H).
    + exact N.
Qed.

(** X2: constants that are not strings: an integer or the ellipsis is
    never reported, while [True], [False] and [None] always are, their
    rendering starting with a capital. *)
Theorem non_string_name_reported
        (cls : ClassDef) (pre post : list node) (attr : node)
        (l0 l1 : nat) (v : pyconst) :
  basenames cls = ["ConanFile"] ->
  is_test (file cls) = Ok false ->
  body cls = pre ++ attr :: post ->
  non_qualifying pre ->
  get_children attr = [AssignName "name" l0; Const v l1] ->
  match v with
  | PyInt _ | PyEllipsis => reports cls = []
  | PyBool _ | PyNone => reports cls = [msg_bad_name attr]
  | PyStr _ | PyBytes _ | PyNumber _ => True
  end.
Proof.
  intros B T E F C.
  rewrite (reports_found _ _ _ _ _ _ _ B T E F C).
  destruct v as [s|s|n|[]| | |t]; try exact I; try reflexivity.
  unfold hit_messages. cbn [Const_as_string].
  destruct (Py.repr_int n) as [value|e] eqn:R; [|reflexivity].
  replace (lowercase_text value) with true; [reflexivity|].
  symmetry. apply lowercase_text_true, (repr_int_lower _ _ R).
Qed.

(** X3: what a reported message means.  Nothing is reported unless the
    base list is exactly [ConanFile]; [conan-bad-name] and
    [conan-missing-name] are only reported outside a test package,
    [conan-test-no-name] only inside one; [conan-bad-name] sits on the
    first qualifying statement, whose text is not lowercase, and
    [conan-missing-name] on a class without qualifying statement. *)
Theorem reported_message_meaning (cls : ClassDef) (m : Message) :
  In m (reports cls) ->
  basenames cls = ["ConanFile"] /\
  ((is_test (file cls) = Ok false /\
    exists attr v value,
      first_qualifying (body cls) = Some (attr, v) /\
      m = msg_bad_name attr /\
      Const_as_string v = Ok value /\
      Py.lower value <> value) \/
   (is_test (file cls) = Ok false /\
    non_qualifying (body cls) /\ m = msg_missing_name cls) \/
   (is_test (file cls) = Ok true /\
    exists attr v, first_qualifying (body cls) = Some (attr, v) /\
                   m = msg_test_no_name attr)).
Proof.
  destruct (is_test_total (file cls)) as [t T].
  rewrite (reports_expected _ _ T). unfold expected.
  destruct (list_string_eqb (basenames cls) ["ConanFile"]) eqn:B; [|intros []].
  apply list_string_eqb_eq in B. intros H. split; [exact B|].
  destruct (first_qualifying (body cls)) as [[attr v]|] eqn:F.
  - unfold hit_messages in H. destruct t.
    + destruct H as [<- | []]. right. right. split; [exact T|]. eauto.
    + destruct (Const_as_string v) as [value|e] eqn:R; [|destruct H].
      destruct (lowercase_text value) eqn:L; [destruct H|].
      destruct H as [<- | []]. left. split; [exact T|].
      exists attr, v, value. split; [reflexivity|]. split; [reflexivity|].
      split; [exact R|]. apply lowercase_text_false; exact L.
  - destruct t; [destruct H|]. destruct H as [<- | []].
    right. left. split; [exact T|]. split; [|reflexivity].
    apply first_qualifying_none_inv; exact F.
Qed.

(** X4: the directories above do not matter: for a relative path [f]
    of at least two components, a file [d/f] is a test-package file exactly
    when [f] is, whatever the directory [d] it is found in. *)
Theorem is_test_any_checkout (d f : string) :
  Py.startswith f "/" = false ->
  2 <= List.length (Py.parts (Py.Path f)) ->
  is_test (d ++ String "/" f) = is_test f.
Proof.
  intros R L. rewrite !is_test_unfold.
  destruct (Path_parts_under d f R) as [X ->].
  rewrite !(last_two_under X _ _ _ L). reflexivity.
Qed.

End CheckerProperties.

(** ** Further properties of the recipe *)

Section RecipeProperties.

Lemma find_last_some {A : Type} (test : A -> bool) (l : list A) (x : A) :
  find_last test l = Some x -> In x l /\ test x = true.
Proof.
  unfold find_last. intros H. apply find_some in H.
  destruct H as [H T]. split; [apply in_rev; exact H | exact T].
Qed.

Lemma find_last_existsb {A : Type} (test : A -> bool) (l : list A) :
  existsb test l = match find_last test l with Some _ => true | None => false end.
Proof.
  destruct (find_last test l) as [x|] eqn:F.
  - apply find_last_some in F. apply existsb_exists. exists x. exact F.
  - unfold find_last in F.
    destruct (existsb test l) eqn:E; [|reflexivity].
    apply existsb_exists in E. destruct E as (x & HI & HT).
    rewrite (find_none _ _ F x) in HT; [discriminate HT|].
    apply in_rev in HI. exact HI.
Qed.

Lemma lookup_setting_rm_safe (sub : TkConan.SubSettings) (key k : string) :
  lookup_setting (TkConan.settings_rm_safe sub key) k =
  if String.eqb k key then None else lookup_setting sub k.
Proof.
  unfold lookup_setting, TkConan.settings_rm_safe.
  induction sub as [|[k0 v0] sub IH]; simpl.
  - destruct (String.eqb k key); reflexivity.
  - destruct (String.eqb k0 key) eqn:E0; simpl.
    + rewrite IH. destruct (String.eqb k key) eqn:E; [reflexivity|].
      destruct (String.eqb k0 k) eqn:E1; [|reflexivity].
      apply String.eqb_eq in E0, E1. subst.
      rewrite String.eqb_refl in E. discriminate E.
    + destruct (String.eqb k0 k) eqn:E1.
      * apply String.eqb_eq in E1. subst k0. rewrite E0. reflexivity.
      * exact IH.
Qed.

(** X5: the directory of the build scripts.  With an explicit
    sub-directory [_get_configure_dir] cannot fail; without one it takes the
    sub-directory from the operating system, and succeeds for Macos,
    FreeBSD, Linux and Windows only: any other operating system raises
    [KeyError]. *)
Theorem configure_dir_by_os (c : TkConan.Conf) :
  (forall s, TkConan._get_configure_dir c (Some s) =
             Ok (Py.path_join (TkConan.source_folder c) [s])) /\
  (In (TkConan.os (TkConan.settings c)) ["Macos"; "FreeBSD"; "Linux"; "Windows"] ->
   exists sub, In sub ["macosx"; "unix"; "win"] /\
               TkConan._get_default_build_system_subdir c = Ok sub /\
               TkConan._get_configure_dir c None =
               Ok (Py.path_join (TkConan.source_folder c) [sub])) /\
  (~ In (TkConan.os (TkConan.settings c)) ["Macos"; "FreeBSD"; "Linux"; "Windows"] ->
   TkConan._get_default_build_system_subdir c =
     Raise (KeyError (TkConan.os (TkConan.settings c))) /\
   TkConan._get_configure_dir c None =
     Raise (KeyError (TkConan.os (TkConan.settings c)))).
Proof.
  split; [reflexivity|].
  unfold TkConan._get_configure_dir, TkConan._get_default_build_system_subdir.
  split.
  - intros [H | [H | [H | [H | []]]]]; rewrite <- H; simpl.
    + exists "macosx". simpl. auto.
    + exists "unix". simpl. auto.
    + exists "unix". simpl. auto.
    + exists "win". simpl. auto 6.
  - intros N. simpl in N.
    assert (E : forall k, In k ["Macos"; "FreeBSD"; "Linux"; "Windows"] ->
                          String.eqb k (TkConan.os (TkConan.settings c)) = false).
    { intros k Hk. apply String.eqb_neq. intros ->. apply N. simpl in Hk. exact Hk. }
    cbn [TkConan.dict_get].
    rewrite (E "Macos"), (E "FreeBSD"), (E "Linux"), (E "Windows");
      simpl; auto 6.
Qed.

(** X6: [_build_nmake] never starts [nmake]: it raises without having
    made any call.  It raises [OSError] when the [lib] folder of tcl cannot
    be listed, [ConanException] when the listing lacks an import library or
    a stub library of tcl, and otherwise the attribute error of
    [_get_configure_folder], looked up for the working directory. *)
Theorem build_nmake_never_runs
        (base : TkConan.Base) (w : TkConan.World) (c : TkConan.Conf)
        (target : string) (tr : list TkConan.call) :
  base "_get_configure_folder" = None ->
  exists e,
    TkConan._build_nmake base w c target tr = (Raise e, tr) /\
    match TkConan.listdir w (Py.path_join (TkConan.tcl_rootpath c) ["lib"]) with
    | None => e = OSError (Py.path_join (TkConan.tcl_rootpath c) ["lib"])
    | Some libs =>
        if existsb (is_tcl_implib c) libs && existsb (is_tcl_stublib c) libs
        then e = AttributeError "_get_configure_folder"
        else e = ConanException "tcl dependency misses tcl and/or tclstub library"
    end.
Proof.
  intros H. unfold TkConan._build_nmake, bind.
  destruct (TkConan.listdir w (Py.path_join (TkConan.tcl_rootpath c) ["lib"]))
    as [libs|].
  - unfold ret. rewrite find_tcl_libs_last, !find_last_existsb.
    destruct (find_last (is_tcl_implib c) libs),
             (find_last (is_tcl_stublib c) libs); simpl;
      try (eexists; split; reflexivity).
    unfold TkConan.getattr, lift, bind. simpl. rewrite H.
    eexists; split; reflexivity.
  - eexists; split; reflexivity.
Qed.

(** X7: which library files are taken.  Of the files of the [lib]
    folder, the import library is the last one named [tcl<infix>*.lib] and
    the stub library the last one named [tclstub<infix>*.lib] that is not
    an import library; both are given with the folder in front, and one is
    missing exactly when no file of the listing has its form. *)
Theorem find_tcl_libs_takes_last
        (c : TkConan.Conf) (tcl_lib_path : string) (libs : list string) :
  TkConan.find_tcl_libs c tcl_lib_path libs =
  (option_map (fun lib => Py.path_join tcl_lib_path [lib])
              (find_last (is_tcl_implib c) libs),
   option_map (fun lib => Py.path_join tcl_lib_path [lib])
              (find_last (is_tcl_stublib c) libs)) /\
  (fst (TkConan.find_tcl_libs c tcl_lib_path libs) = None <->
   forall lib, In lib libs -> is_tcl_implib c lib = false) /\
  (snd (TkConan.find_tcl_libs c tcl_lib_path libs) = None <->
   forall lib, In lib libs -> is_tcl_stublib c lib = false) /\
  (forall x, fst (TkConan.find_tcl_libs c tcl_lib_path libs) = Some x ->
             exists lib, In lib libs /\ is_tcl_implib c lib = true /\
                         x = Py.path_join tcl_lib_path [lib]) /\
  (forall x, snd (TkConan.find_tcl_libs c tcl_lib_path libs) = Some x ->
             exists lib, In lib libs /\ is_tcl_stublib c lib = true /\
                         x = Py.path_join tcl_lib_path [lib]).
Proof.
  rewrite find_tcl_libs_last. split; [reflexivity|]. simpl.
  assert (N : forall test : string -> bool,
             option_map (fun lib => Py.path_join tcl_lib_path [lib])
                        (find_last test libs) = None <->
             forall lib, In lib libs -> test lib = false).
  { intros test. destruct (find_last test libs) as [x|] eqn:F; simpl.
    - split; [discriminate|]. intros A.
      apply find_last_some in F. destruct F as [HI HT].
      rewrite (A x HI) in HT. discriminate HT.
    - split; [|reflexivity]. intros _ lib HI.
      unfold find_last in F. apply (find_none _ _ F). apply in_rev in HI. exact HI. }
  assert (S : forall (test : string -> bool) x,
             option_map (fun lib => Py.path_join tcl_lib_path [lib])
                        (find_last test libs) = Some x ->
             exists lib, In lib libs /\ test lib = true /\
                         x = Py.path_join tcl_lib_path [lib]).
  { intros test x. destruct (find_last test libs) as [lib|] eqn:F; simpl;
      [|discriminate].
    intros E. injection E as <-. apply find_last_some in F.
    exists lib. tauto. }
  split; [apply N|]. split; [apply N|]. split; apply S.
Qed.

(** X8: the infix of the library names is made of the first two
    components of the version: [M.m] and [M.m.rest] both give [Mm], and a
    version without dot is taken whole. *)
Theorem version_infix_major_minor (c : TkConan.Conf) (M m : string) :
  Py.contains "." M = false ->
  Py.contains "." m = false ->
  (TkConan.version c = M -> TkConan.version_infix c = M) /\
  (TkConan.version c = (M ++ String "." m)%string ->
   TkConan.version_infix c = (M ++ m)%string) /\
  (forall rest,
      TkConan.version c = (M ++ String "." (m ++ String "." rest))%string ->
      TkConan.version_infix c = (M ++ m)%string).
Proof.
  intros HM Hm. unfold TkConan.version_infix. split; [|split].
  - intros ->. unfold Py.split. rewrite (split_on_piece _ _ _ HM). reflexivity.
  - intros ->. rewrite (split_on_first _ _ _ HM).
    unfold Py.split. rewrite (split_on_piece _ _ _ Hm). reflexivity.
  - intros rest ->. rewrite (split_on_first _ _ _ HM), (split_on_first _ _ _ Hm).
    reflexivity.
Qed.

(** X9: the argument handed to [make] is one assignment of
    [TCL_GENERIC_DIR] and holds no backslash, whatever the root folder of
    tcl looks like. *)
Theorem autotools_args_posix (c : TkConan.Conf) :
  exists a,
    TkConan._get_autotools_args c = [a] /\
    Py.startswith a "TCL_GENERIC_DIR=" = true /\
    Py.contains "\" a = false.
Proof.
  unfold TkConan._get_autotools_args. eexists. split; [reflexivity|]. split.
  - simpl. apply startswith_nil.
  - apply replace_removes. reflexivity.
Qed.

(** X10: the option [fPIC] before the build.  Starting from the
    declared options, where [fPIC] is present, [config_options] followed by
    [configure] never fails and leaves [shared] as it was; [fPIC] survives
    exactly when the operating system is not Windows and the library is
    static.  [configure] itself cannot fail, leaves options without [fPIC]
    as they are, and drops the sub-settings [compiler.libcxx] and
    [compiler.cppstd] and no other. *)
Theorem fPIC_after_configure
        (on_absent : TkConan.Options -> result TkConan.Options)
        (s : TkConan.Settings) (o : TkConan.Options) (sub : TkConan.SubSettings) :
  (forall b, TkConan.fPIC o = Some b ->
     exists o1,
       TkConan.config_options on_absent s o = Ok o1 /\
       TkConan.opt_shared (fst (TkConan.configure o1 sub)) = TkConan.opt_shared o /\
       TkConan.fPIC (fst (TkConan.configure o1 sub)) =
       if String.eqb (TkConan.os s) "Windows" || TkConan.opt_shared o
       then None else Some b) /\
  (TkConan.fPIC o = None -> fst (TkConan.configure o sub) = o) /\
  lookup_setting (snd (TkConan.configure o sub)) "compiler.libcxx" = None /\
  lookup_setting (snd (TkConan.configure o sub)) "compiler.cppstd" = None /\
  (forall k, k <> "compiler.libcxx" -> k <> "compiler.cppstd" ->
             lookup_setting (snd (TkConan.configure o sub)) k = lookup_setting sub k).
Proof.
  split.
  { intros b Hb. unfold TkConan.config_options, TkConan.del_fPIC. rewrite Hb.
    destruct (String.eqb (TkConan.os s) "Windows"); eexists;
      (split; [reflexivity|]);
      unfold TkConan.configure, TkConan.rm_safe_fPIC; simpl;
      destruct (TkConan.opt_shared o) eqn:Sh; simpl; rewrite ?Hb; simpl;
      auto. }
  split.
  { intros Hn. unfold TkConan.configure, TkConan.rm_safe_fPIC.
    rewrite Hn. destruct (TkConan.opt_shared o); reflexivity. }
  unfold TkConan.configure. cbn [snd].
  split; [|split].
  - rewrite !lookup_setting_rm_safe. reflexivity.
  - rewrite !lookup_setting_rm_safe. reflexivity.
  - intros k K1 K2. rewrite !lookup_setting_rm_safe.
    apply String.eqb_neq in K1, K2. rewrite K1, K2. reflexivity.
Qed.

(** X11: the libraries a consumer links.  There are always two, the
    toolkit and its stub library.  With any compiler but Visual Studio they
    are [tk<major>.<minor>] and [tkstub<major>.<minor>]; with Visual Studio
    the names have no dot and the toolkit gets a suffix: [t] or [tg] when
    shared, [ts], [tsg], [tsx] or [tsgx] when static, with [g] exactly for
    a Debug build. *)
Theorem package_info_libs (c : TkConan.Conf) (runtime major minor : string) :
  (TkConan.compiler (TkConan.settings c) <> "Visual Studio" ->
   TkConan.libs (TkConan.cpp_info (TkConan.package_info c runtime major minor)) =
   [("tk" ++ major ++ "." ++ minor)%string;
    ("tkstub" ++ major ++ "." ++ minor)%string]) /\
  (TkConan.compiler (TkConan.settings c) = "Visual Studio" ->
   exists suffix,
     TkConan.libs (TkConan.cpp_info (TkConan.package_info c runtime major minor)) =
     [("tk" ++ (major ++ minor) ++ suffix)%string;
      ("tkstub" ++ (major ++ minor))%string] /\
     (if TkConan.shared c
      then In suffix ["t"; "tg"]
      else In suffix ["ts"; "tsg"; "tsx"; "tsgx"]) /\
     (In suffix ["tg"; "tsg"; "tsgx"] <->
      TkConan.build_type (TkConan.settings c) = "Debug")).
Proof.
  unfold TkConan.package_info. split.
  - intros N. apply String.eqb_neq in N. rewrite N.
    destruct (String.eqb (TkConan.os (TkConan.settings c)) "Macos");
      [|destruct (String.eqb (TkConan.os (TkConan.settings c)) "Windows")];
      simpl; rewrite string_app_nil_r; reflexivity.
  - intros V. rewrite V. rewrite String.eqb_refl.
    eexists. split.
    + destruct (String.eqb (TkConan.os (TkConan.settings c)) "Macos");
        [|destruct (String.eqb (TkConan.os (TkConan.settings c)) "Windows")];
        reflexivity.
    + destruct (String.eqb (TkConan.build_type (TkConan.settings c)) "Debug") eqn:D;
        [apply String.eqb_eq in D | apply String.eqb_neq in D];
        destruct (TkConan.shared c), (Py.in_str "MD" runtime); simpl;
        (split; [auto 6|]); split; intros H; try exact D; auto 6;
        try (exfalso; exact (D H));
        repeat (destruct H as [H | H]; [discriminate H|]); destruct H.
Qed.

(** X12: the rest of the package information.  The environment of the
    consumer gets [TK_LIBRARY] and [TCL_ROOT], the same in [runenv_info]
    and in [env_info]; no value holds a backslash, and [TCL_ROOT] is the
    folder of this very package.  Frameworks are given on Macos only and
    system libraries on Windows only, hence never both. *)
Theorem package_info_environment (c : TkConan.Conf) (runtime major minor : string) :
  TkConan.runenv_info (TkConan.package_info c runtime major minor) =
  TkConan.env_info (TkConan.package_info c runtime major minor) /\
  map fst (TkConan.env_info (TkConan.package_info c runtime major minor)) =
  ["TK_LIBRARY"; "TCL_ROOT"] /\
  (forall k v,
      In (k, v) (TkConan.env_info (TkConan.package_info c runtime major minor)) ->
      Py.contains "\" v = false) /\
  In ("TCL_ROOT", Py.replace (TkConan.package_folder c) "\" "/")
     (TkConan.env_info (TkConan.package_info c runtime major minor)) /\
  (TkConan.frameworks (TkConan.cpp_info (TkConan.package_info c runtime major minor))
   <> [] <-> TkConan.os (TkConan.settings c) = "Macos") /\
  (TkConan.system_libs (TkConan.cpp_info (TkConan.package_info c runtime major minor))
   <> [] <-> TkConan.os (TkConan.settings c) = "Windows").
Proof.
  unfold TkConan.package_info.
  destruct (String.eqb (TkConan.compiler (TkConan.settings c)) "Visual Studio");
    destruct (String.eqb_spec (TkConan.os (TkConan.settings c)) "Macos") as [Mac|Mac];
    try destruct (String.eqb_spec (TkConan.os (TkConan.settings c)) "Windows")
      as [Win|Win];
    cbn [TkConan.runenv_info TkConan.env_info TkConan.cpp_info
         TkConan.frameworks TkConan.system_libs map fst];
    (split; [reflexivity|]); (split; [reflexivity|]);
    (split; [intros k v [H | [H | []]]; injection H as _ <-;
             apply replace_removes; reflexivity|]);
    (split; [right; left; reflexivity|]);
    split; split; intros H;
    first [ assumption
          | discriminate H
          | contradiction
          | exfalso; apply H; reflexivity
          | congruence ].
Qed.

Lemma replace_app (a b : string) (old : ascii) (new : string) :
  Py.replace (a ++ b) old new = (Py.replace a old new ++ Py.replace b old new)%string.
Proof.
  induction a as [|c a IH]; simpl; [reflexivity|].
  rewrite IH, string_app_assoc. reflexivity.
Qed.

Lemma endswith_app (a b : string) : Py.endswith (a ++ b) b = true.
Proof.
  induction a as [|c a IH].
  - simpl. destruct b; simpl; rewrite ?Ascii.eqb_refl, ?String.eqb_refl; reflexivity.
  - cbn [String.append Py.endswith]. rewrite IH. apply orb_true_r.
Qed.

Lemma app_lib_not_empty (a : string) : String.eqb (a ++ "lib") "" = false.
Proof. destruct a; reflexivity. Qed.

Lemma app_lib_no_sep (a : string) : Py.endswith (a ++ "lib") "/" = false.
Proof.
  induction a as [|c a IH]; [reflexivity|].
  cbn [String.append Py.endswith]. rewrite IH, orb_false_r.
  cbn [String.eqb]. rewrite app_lib_not_empty. apply andb_false_r.
Qed.

(** the folder [lib/x] under [folder], for a name [x] that starts with [tk] *)
Lemma path_join_lib (folder x : string) :
  exists before,
    Py.path_join folder ["lib"; ("tk" ++ x)%string] =
    (before ++ ("lib/tk" ++ x))%string.
Proof.
  unfold Py.path_join. cbn [fold_left].
  change (Py.startswith "lib" "/") with false. cbv iota.
  change (Py.startswith ("tk" ++ x) "/") with false. cbv iota.
  destruct (String.eqb folder "" || Py.endswith folder "/").
  - rewrite app_lib_not_empty, app_lib_no_sep. cbn [orb].
    exists folder. rewrite !string_app_assoc. reflexivity.
  - change (folder ++ "/" ++ "lib")%string with (folder ++ ("/" ++ "lib"))%string.
    rewrite <- (string_app_assoc folder "/" "lib").
    rewrite app_lib_not_empty, app_lib_no_sep. cbn [orb].
    exists (folder ++ "/")%string. rewrite !string_app_assoc. reflexivity.
Qed.

(** X13: the folder named by [TK_LIBRARY].  For a version [M.m.rest],
    [M] and [m] without dot or backslash, the value of [TK_LIBRARY] ends
    with [lib/tk<M>.<m>] and holds no backslash, whatever the package
    folder looks like. *)
Theorem tk_library_folder
        (c : TkConan.Conf) (runtime major minor M m rest : string) :
  Py.contains "." M = false ->
  Py.contains "." m = false ->
  Py.contains "\" M = false ->
  Py.contains "\" m = false ->
  TkConan.version c = (M ++ String "." (m ++ String "." rest))%string ->
  exists value,
    In ("TK_LIBRARY", value)
       (TkConan.env_info (TkConan.package_info c runtime major minor)) /\
    Py.endswith value ("lib/tk" ++ M ++ "." ++ m) = true /\
    Py.contains "\" value = false.
Proof.
  intros HM Hm HbM Hbm V.
  exists (Py.replace (Py.path_join (TkConan.package_folder c)
                        ["lib"; ("tk" ++ M ++ "." ++ m)%string]) "\" "/").
  split; [|split].
  - unfold TkConan.package_info.
    rewrite V, (split_on_first _ _ _ HM), (split_on_first _ _ _ Hm).
    destruct (String.eqb (TkConan.compiler (TkConan.settings c)) "Visual Studio");
      destruct (String.eqb (TkConan.os (TkConan.settings c)) "Macos");
      try destruct (String.eqb (TkConan.os (TkConan.settings c)) "Windows");
      left; reflexivity.
  - destruct (path_join_lib (TkConan.package_folder c) (M ++ "." ++ m))
      as [before ->].
    rewrite replace_app.
    rewrite (replace_absent ("lib/tk" ++ M ++ "." ++ m)).
    + apply endswith_app.
    + change ("lib/tk" ++ M ++ "." ++ m)%string
        with ("lib/tk" ++ (M ++ ("." ++ m)))%string.
      rewrite !contains_app, HbM, Hbm. reflexivity.
  - apply replace_removes. reflexivity.
Qed.

(** X14: the two missing names are independent defects.  Even with a
    base class that provides [_get_configure_folder] as a plain function,
    [build] still raises as long as [_source_subfolder] is missing: no build
    tool is started, and when every call succeeds the error is the
    attribute error of [_source_subfolder], after the patches and five
    replacements in the build scripts. *)
Theorem build_still_fails_without_source_subfolder
        (base : TkConan.Base) (w : TkConan.World) (c : TkConan.Conf)
        (f : TkConan.attribute) (dir : list string -> string) :
  base "_get_configure_folder" = Some f ->
  (forall args tr, f args tr = (Ok (dir args), tr)) ->
  base "_source_subfolder" = None ->
  exists e calls,
    TkConan.build base w c [] = (Raise e, calls) /\
    forallb (fun x => negb (TkConan.is_build_tool x)) calls = true /\
    ((forall x, TkConan.succeeds w x = true) ->
     e = AttributeError "_source_subfolder" /\ List.length calls = 6).
Proof.
  intros Hf Hp Hs.
  unfold TkConan.build, TkConan._patch_sources, TkConan.for_each,
    TkConan.getattr, TkConan.invoke, bind, ret, raise.
  rewrite Hf, Hs. cbn [String.eqb Ascii.eqb Bool.eqb negb andb].
  repeat
    (rewrite ?Hp;
     match goal with
     | |- context [TkConan.succeeds w ?x] =>
         let E := fresh "E" in destruct (TkConan.succeeds w x) eqn:E
     end);
    rewrite ?Hp;
    eexists; eexists; (split; [reflexivity|]); (split; [reflexivity|]);
    intros A;
    repeat match goal with
           | E : TkConan.succeeds w ?x = false |- _ =>
               rewrite (A x) in E; discriminate E
           end.
  split; reflexivity.
Qed.

End RecipeProperties.

(** ** The further properties at sample inputs *)

Section MoreWitnesses.

Import Samples.

Lemma str_name_reported_iff_capital_witness :
  is_test recipe_file = Ok false /\
  non_qualifying [assign_call 2 "name"] /\
  (reports (FooConan [assign_call 2 "name"; assign 3 "name" (PyStr "it's Foo")])
   = [msg_bad_name (assign 3 "name" (PyStr "it's Foo"))] <->
   Py.lower "it's Foo" <> "it's Foo").
Proof.
  split; [reflexivity|].
  assert (F : non_qualifying [assign_call 2 "name"]) by (repeat constructor).
  split; [exact F|].
  apply (str_name_reported_iff_capital
           (FooConan [assign_call 2 "name"; assign 3 "name" (PyStr "it's Foo")])
           [assign_call 2 "name"] [] (assign 3 "name" (PyStr "it's Foo"))
           3 3 "it's Foo" eq_refl eq_refl eq_refl F eq_refl).
Defined.

Lemma non_string_name_reported_witness :
  is_test recipe_file = Ok false /\
  reports (FooConan [assign 2 "name" PyNone]) = [msg_bad_name (assign 2 "name" PyNone)].
Proof.
  split; [reflexivity|].
  apply (non_string_name_reported
           (FooConan [assign 2 "name" PyNone]) [] [] (assign 2 "name" PyNone)
           2 2 PyNone eq_refl eq_refl eq_refl (Forall_nil _) eq_refl).
Defined.

Lemma reported_message_meaning_witness :
  In (msg_missing_name (FooConan [ann_assign 2 "name" (PyStr "foo")]))
     (reports (FooConan [ann_assign 2 "name" (PyStr "foo")])) /\
  basenames (FooConan [ann_assign 2 "name" (PyStr "foo")]) = ["ConanFile"].
Proof.
  assert (I : In (msg_missing_name (FooConan [ann_assign 2 "name" (PyStr "foo")]))
                 (reports (FooConan [ann_assign 2 "name" (PyStr "foo")])))
    by (left; reflexivity).
  split; [exact I|].
  apply (proj1 (reported_message_meaning _ _ I)).
Defined.

Lemma is_test_any_checkout_witness :
  Py.startswith "test_package/conanfile.py" "/" = false /\
  2 <= List.length (Py.parts (Py.Path "test_package/conanfile.py")) /\
  is_test "/home/ci/recipes/foo/all/test_package/conanfile.py" =
  is_test "test_package/conanfile.py".
Proof.
  split; [reflexivity|].
  assert (L : 2 <= List.length (Py.parts (Py.Path "test_package/conanfile.py")))
    by (simpl; lia).
  split; [exact L|].
  apply (is_test_any_checkout "/home/ci/recipes/foo/all"
                              "test_package/conanfile.py" eq_refl L).
Defined.

Lemma configure_dir_by_os_witness :
  ~ In (TkConan.os (TkConan.settings android_clang))
       ["Macos"; "FreeBSD"; "Linux"; "Windows"] /\
  TkConan._get_configure_dir android_clang None = Raise (KeyError "Android").
Proof.
  assert (N : ~ In (TkConan.os (TkConan.settings android_clang))
                   ["Macos"; "FreeBSD"; "Linux"; "Windows"]).
  { simpl. intros H.
    repeat (destruct H as [H | H]; [discriminate H|]). exact H. }
  split; [exact N|].
  apply (proj2 (proj2 (proj2 (configure_dir_by_os android_clang)) N)).
Defined.

Lemma build_nmake_never_runs_witness :
  conan1_base "_get_configure_folder" = None /\
  exists e,
    TkConan._build_nmake conan1_base tcl_libs_present windows_msvc "release" [] =
    (Raise e, []).
Proof.
  split; [reflexivity|].
  destruct (build_nmake_never_runs conan1_base tcl_libs_present windows_msvc
                                   "release" [] eq_refl) as (e & E & _).
  exists e. exact E.
Defined.

Lemma find_tcl_libs_takes_last_witness :
  fst (TkConan.find_tcl_libs windows_msvc "C:/deps/tcl/lib"
                             ["tcl86t.dll"; "tcl86t.lib"; "tclstub86.lib"])
  = Some "C:/deps/tcl/lib/tcl86t.lib" /\
  exists lib,
    In lib ["tcl86t.dll"; "tcl86t.lib"; "tclstub86.lib"] /\
    is_tcl_implib windows_msvc lib = true /\
    "C:/deps/tcl/lib/tcl86t.lib" = Py.path_join "C:/deps/tcl/lib" [lib].
Proof.
  split; [reflexivity|].
  apply (proj1 (proj2 (proj2 (proj2
           (find_tcl_libs_takes_last windows_msvc "C:/deps/tcl/lib"
              ["tcl86t.dll"; "tcl86t.lib"; "tclstub86.lib"]))))
           "C:/deps/tcl/lib/tcl86t.lib" eq_refl).
Defined.

Lemma version_infix_major_minor_witness :
  Py.contains "." "8" = false /\
  Py.contains "." "6" = false /\
  TkConan.version linux_gcc = "8.6.10" /\
  TkConan.version_infix linux_gcc = "86".
Proof.
  split; [reflexivity|]. split; [reflexivity|]. split; [reflexivity|].
  apply (proj2 (proj2 (version_infix_major_minor linux_gcc "8" "6" eq_refl eq_refl))
           "10" eq_refl).
Defined.

Lemma fPIC_after_configure_witness :
  TkConan.fPIC declared_options = Some true /\
  exists o1,
    TkConan.config_options (fun o => Ok o) (TkConan.settings windows_msvc)
                           declared_options = Ok o1 /\
    TkConan.fPIC (fst (TkConan.configure o1 compiler_settings)) = None.
Proof.
  split; [reflexivity|].
  destruct (proj1 (fPIC_after_configure (fun o => Ok o)
                     (TkConan.settings windows_msvc)
                     declared_options compiler_settings) true eq_refl)
    as (o1 & E & _ & F).
  exists o1. split; [exact E | exact F].
Defined.

Lemma package_info_libs_witness :
  TkConan.compiler (TkConan.settings windows_msvc) = "Visual Studio" /\
  exists suffix,
    TkConan.libs (TkConan.cpp_info (TkConan.package_info windows_msvc "MDd" "8" "6")) =
    [("tk" ++ ("8" ++ "6") ++ suffix)%string; ("tkstub" ++ ("8" ++ "6"))%string] /\
    In suffix ["ts"; "tsg"; "tsx"; "tsgx"].
Proof.
  split; [reflexivity|].
  destruct (proj2 (package_info_libs windows_msvc "MDd" "8" "6") eq_refl)
    as (suffix & E & S & _).
  exists suffix. split; [exact E | exact S].
Defined.

Lemma tk_library_folder_witness :
  TkConan.version windows_msvc = "8.6.10" /\
  exists value,
    In ("TK_LIBRARY", value)
       (TkConan.env_info (TkConan.package_info windows_msvc "MDd" "8" "6")) /\
    Py.endswith value "lib/tk8.6" = true.
Proof.
  split; [reflexivity|].
  destruct (tk_library_folder windows_msvc "MDd" "8" "6" "8" "6" "10"
              eq_refl eq_refl eq_refl eq_refl eq_refl)
    as (value & I & E & _).
  exists value. split; [exact I | exact E].
Defined.

Lemma build_still_fails_without_source_subfolder_witness :
  folder_base "_source_subfolder" = None /\
  exists e calls,
    TkConan.build folder_base all_succeed linux_gcc [] = (Raise e, calls) /\
    e = AttributeError "_source_subfolder" /\ List.length calls = 6.
Proof.
  split; [reflexivity|].
  destruct (build_still_fails_without_source_subfolder
              folder_base all_succeed linux_gcc
              (fun args => ret (Py.path_join "/build/src" args))
              (fun args => Py.path_join "/build/src" args)
              eq_refl (fun _ _ => eq_refl) eq_refl)
    as (e & calls & E & _ & A).
  exists e, calls. split; [exact E|]. apply A. reflexivity.
Defined.

End MoreWitnesses.
